(** * sherlock: the code analyzer (type inference over a Python syntax tree)

    Shallow embedding of [sherlock/codelib/analyzer/__init__.py]: the class
    [CodeAnalyzer] with its methods [get_type], [get_function_return_type],
    [analysis_function], [analysis_assign_node] and [analysis].

    The analyzer is an object with two mutable tables; its methods are
    embedded as computations in a state-and-exception monad over the record
    [CodeAnalyzer].  A function body is analysed when the first call to the
    function is met, and nothing in the source stops a function that calls
    itself from being analysed again and again: the methods therefore take a
    bound on the depth of nested calls, and a run that exceeds it ends in
    [OutOfFuel]. *)

From Stdlib Require Import String List Bool Arith ZArith Lia.
Import ListNotations.
Set Warnings "-register-all".
Set Implicit Arguments.
Open Scope string_scope.

(** ** The syntax tree read by the analyzer

    The node classes of Python's [ast] module that the source tests with
    [isinstance] or reads a field of.  Every other expression class is
    [OtherExpr], every other statement class [OtherStmt], tagged with the
    class name. *)
Module ast.

Inductive operator :=
| Add | Sub | Mult | MatMult | Div | Mod | Pow
| LShift | RShift | BitOr | BitXor | BitAnd | FloorDiv.

Inductive unaryop := Invert | Not | UAdd | USub.

Inductive expr :=
| BinOp (left : expr) (op : operator) (right : expr)
| UnaryOp (op : unaryop) (operand : expr)
| Num (n : Z)
| Str (s : string)
| List (elts : list expr)
| Call (func : expr) (args : list expr)
| Name (id : string)
| Tuple (elts : list expr)
| Attribute (value : expr) (attr : string)
| OtherExpr (class_name : string).

Inductive stmt :=
| Assign (targets : list expr) (value : expr)
| Expr (value : expr)
| ImportFrom (module : string) (names : list string)
| FunctionDef (name : string) (args : list string) (body : list stmt)
| Return (value : option expr)
| OtherStmt (class_name : string).

(** [node.op.__class__.__name__] *)
Definition operator_class_name (op : operator) : string :=
  match op with
  | Add => "Add" | Sub => "Sub" | Mult => "Mult" | MatMult => "MatMult"
  | Div => "Div" | Mod => "Mod" | Pow => "Pow"
  | LShift => "LShift" | RShift => "RShift"
  | BitOr => "BitOr" | BitXor => "BitXor" | BitAnd => "BitAnd"
  | FloorDiv => "FloorDiv"
  end.

(** [isinstance(node.op, ast.Add)] *)
Definition is_Add (op : operator) : bool :=
  match op with Add => true | _ => false end.

(** [isinstance(node, ast.Num)] *)
Definition is_Num (node : expr) : bool :=
  match node with Num _ => true | _ => false end.

(** [isinstance(node, ast.Call)] *)
Definition is_Call (node : expr) : bool :=
  match node with Call _ _ => true | _ => false end.

(** [isinstance(node, ast.Return)] *)
Definition is_Return (node : stmt) : bool :=
  match node with Return _ => true | _ => false end.

(** [isinstance(node, ast.FunctionDef) and node.name == function_name] *)
Definition is_FunctionDef_named (function_name : string) (node : stmt) : bool :=
  match node with
  | FunctionDef name _ _ => String.eqb name function_name
  | _ => false
  end.

End ast.

(** ** Types *)
Module Type_.

(** Modelled from the spec: the class [Type] of
    [sherlock/codelib/analyzer/variable.py], which is not among the sources:
    a closed enumeration of four tags, compared by tag. *)
Inductive t := NUMBER | STRING | LIST | VOID.

(** Modelled from the spec: the property [Type.is_number], which holds only
    for [NUMBER]. *)
Definition is_number (ty : t) : bool :=
  match ty with NUMBER => true | _ => false end.

Definition eqb (a b : t) : bool :=
  match a, b with
  | NUMBER, NUMBER | STRING, STRING | LIST, LIST | VOID, VOID => true
  | _, _ => false
  end.

End Type_.

(** What a Python expression of the analyzer evaluates to where the source
    expects a [Type]: a type, or [None]. *)
Definition pytype := option Type_.t.

Definition pytype_eqb (a b : pytype) : bool :=
  match a, b with
  | Some x, Some y => Type_.eqb x y
  | None, None => true
  | _, _ => false
  end.

Fixpoint args_type_eqb (xs ys : list pytype) : bool :=
  match xs, ys with
  | [], [] => true
  | x :: xs', y :: ys' => pytype_eqb x y && args_type_eqb xs' ys'
  | _, _ => false
  end.

(** ** Symbol tables

    The table classes [Variables] and [Functions] are not among the sources.
    Both are ordered sequences of entries keyed by a name. *)
Section Table.
Variable entry : Type.
Variable key : entry -> string.

(** Modelled from the spec: the method [append] of the table classes,
    which inserts the entry or, when the table holds an entry of that
    name, takes its place. *)
Fixpoint table_append (e : entry) (tbl : list entry) : list entry :=
  match tbl with
  | [] => [e]
  | x :: rest =>
      if String.eqb (key x) (key e) then e :: rest
      else x :: table_append e rest
  end.

(** Modelled from the spec: the lookup [table[name]] of the table classes,
    which gives the first entry of that name, or nothing. *)
Fixpoint table_getitem (k : string) (tbl : list entry) : option entry :=
  match tbl with
  | [] => None
  | x :: rest => if String.eqb (key x) k then Some x else table_getitem k rest
  end.
End Table.

(** [Variable(name=..., var_type=...)]; the type recorded is whatever
    [get_type] returned, [None] included. *)
Record Variable_ := mkVariable { name : string; var_type : pytype }.

Definition Variables_ := list Variable_.

(** [CodeGenerator(code, functions=..., variables=...)]: the handle given to
    the generator, which lies outside the analyzer.  A keyword argument that
    is not passed is [None] here. *)
Record CodeGenerator_ (F : Type) := mkCodeGenerator {
  generator_code : string;
  generator_functions : option (list F);
  generator_variables : option Variables_
}.

(** [Function(function_name, args_type, return_type, generator)].  The only
    place that builds one passes the return type computed by
    [analysis_function], which has replaced [None] by [VOID]. *)
Inductive Function :=
  mkFunction (function_name : string) (args_type : list pytype)
             (return_type : Type_.t) (generator : CodeGenerator_ Function).

Definition function_name (f : Function) : string :=
  let '(mkFunction n _ _ _) := f in n.
Definition args_type (f : Function) : list pytype :=
  let '(mkFunction _ a _ _) := f in a.
Definition return_type (f : Function) : Type_.t :=
  let '(mkFunction _ _ r _) := f in r.
Definition generator (f : Function) : CodeGenerator_ Function :=
  let '(mkFunction _ _ _ g) := f in g.

(** Modelled from the spec: [Function.is_args_type_match], which compares
    the entry's argument types with those of the call element-wise. *)
Definition is_args_type_match (f : Function) (call_args_type : list pytype) : bool :=
  args_type_eqb (args_type f) call_args_type.

Definition Functions := list Function.
Definition CodeGenerator := CodeGenerator_ Function.

Definition Variables_append := table_append name.
Definition Variables_getitem := table_getitem name.
Definition Functions_append := table_append function_name.
Definition Functions_getitem := table_getitem function_name.

(** ** The analyzer object and the monad of its methods *)

(** The exceptions a run can end in.  The first three are the classes of
    [sherlock.errors] that the source raises; the next three are raised by
    the Python interpreter; the last stands for whatever the import hook
    raises. *)
Inductive exception :=
| CompileError (msg : string)
| SyntaxNotSupportError (msg : string)
| ParamTypeMismatchError (msg : string) (function_name : string)
| NameError (name : string)
| AttributeError (attr : string)
| IndexError
| CollaboratorError (msg : string).

(** The fields of a [CodeAnalyzer] instance; [module_body] is
    [self.module_node.body]. *)
Record CodeAnalyzer := mkCodeAnalyzer {
  code : string;
  module_body : list ast.stmt;
  functions : Functions;
  variables : Variables_
}.

Inductive result (A : Type) :=
| Ok (a : A) (self : CodeAnalyzer)
| Raise (e : exception)
| OutOfFuel.
Arguments Raise {A} e.
Arguments OutOfFuel {A}.

Definition M (A : Type) : Type := CodeAnalyzer -> result A.

Definition ret {A} (a : A) : M A := fun self => Ok a self.
Definition raise {A} (e : exception) : M A := fun _ => Raise e.
Definition out_of_fuel {A} : M A := fun _ => OutOfFuel.

Definition bind {A B} (m : M A) (k : A -> M B) : M B :=
  fun self =>
    match m self with
    | Ok a self' => k a self'
    | Raise e => Raise e
    | OutOfFuel => OutOfFuel
    end.

Notation "x <- m ;; k" := (bind m (fun x => k))
  (at level 61, m at next level, right associativity).
Notation "' p <- m ;; k" := (bind m (fun x => let 'p := x in k))
  (at level 61, p pattern, m at next level, right associativity).

(** Reading a field of [self], and the two updates the source makes. *)
Definition get_self {A} (field : CodeAnalyzer -> A) : M A :=
  fun self => Ok (field self) self.

Definition functions_append (f : Function) : M unit :=
  fun self =>
    Ok tt (mkCodeAnalyzer (code self) (module_body self)
             (Functions_append f (functions self)) (variables self)).

Definition set_variables (vs : Variables_) : M unit :=
  fun self =>
    Ok tt (mkCodeAnalyzer (code self) (module_body self) (functions self) vs).

(** [[f(x) for x in xs]], left to right. *)
Fixpoint mapM {A B} (f : A -> M B) (xs : list A) : M (list B) :=
  match xs with
  | [] => ret []
  | x :: rest => y <- f x ;; ys <- mapM f rest ;; ret (y :: ys)
  end.

(** [for x in xs: ...] over loop-carried local variables [acc]. *)
Fixpoint for_each {A S} (xs : list A) (acc : S) (body : S -> A -> M S) : M S :=
  match xs with
  | [] => ret acc
  | x :: rest => acc' <- body acc x ;; for_each rest acc' body
  end.

(** Reading an attribute of a value that may be [None]. *)
Definition attr_is_number (ty : pytype) : M bool :=
  match ty with
  | Some t => ret (Type_.is_number t)
  | None => raise (AttributeError "is_number")
  end.

(** [node.id], which only a [Name] node has. *)
Definition attr_id (node : ast.expr) : M string :=
  match node with
  | ast.Name id => ret id
  | _ => raise (AttributeError "id")
  end.

(** Evaluating an identifier that is bound neither in the method nor at the
    top level of the source file. *)
Definition unbound_name {A} (id : string) : M A := raise (NameError id).

(** The collaborators outside the analyzer, which are not among the
    sources: the registry of system functions ([is_system_function], and
    [SystemFunction.get_function(name).return_type], a type for every name
    of the registry) and the import hook [analyze_cmd], which returns
    nothing the analyzer reads and may raise. *)
Class Collaborators := {
  is_system_function : string -> bool;
  system_function_return_type : string -> Type_.t;
  analyze_cmd : string -> list string -> option exception
}.

(** [a.is_number and b.is_number]: the right attribute is read only when the
    left one is true. *)
Definition both_is_number (left_type right_type : pytype) : M bool :=
  l <- attr_is_number left_type ;;
  if l then attr_is_number right_type else ret false.

(** [entry.var_type] where [entry] came from a table lookup: the lookup of
    an absent name gives nothing, and nothing has no attribute. *)
Definition attr_var_type (entry : option Variable_) : M pytype :=
  match entry with
  | Some v => ret (var_type v)
  | None => raise (AttributeError "var_type")
  end.

(** [if return_type is None: return_type = Type.VOID] *)
Definition void_if_none (ty : pytype) : Type_.t :=
  match ty with
  | Some t => t
  | None => Type_.VOID
  end.

(** ** The methods of [CodeAnalyzer] *)
Section Methods.
Context {collaborators : Collaborators}.

(** The body of the loop of [analysis_function] over the statements of a
    function, with the two methods it calls; its loop-carried locals are
    [variables] and [return_type]. *)
Definition analysis_function_loop
    (get_type : ast.expr -> M pytype)
    (analysis_assign_node : Variables_ -> ast.stmt -> M Variables_)
    (locals : Variables_ * Type_.t) (node : ast.stmt)
  : M (Variables_ * Type_.t) :=
  let '(variables, return_type) := locals in
  match node with
  | ast.Assign _ _ =>
      variables <- analysis_assign_node variables node ;;
      ret (variables, return_type)
  | ast.Return value =>
      return_type <-
        match value with
        | Some value => get_type value
        | None => ret None
        end ;;
      ret (variables, void_if_none return_type)
  | _ => ret (variables, return_type)
  end.

Fixpoint get_type (fuel : nat) (node : ast.expr) {struct fuel} : M pytype :=
  match fuel with
  | 0 => out_of_fuel
  | S fuel =>
      match node with
      | ast.BinOp node_left op node_right =>
          left_type <- get_type fuel node_left ;;
          right_type <- get_type fuel node_right ;;
          if ast.is_Add op then
            both <- both_is_number left_type right_type ;;
            if both then ret (Some Type_.NUMBER) else ret (Some Type_.STRING)
          else
            both <- both_is_number left_type right_type ;;
            if both then ret (Some Type_.NUMBER)
            else raise (CompileError
                          ("Can not '" ++ ast.operator_class_name op
                             ++ "' operator with string."))
      | ast.UnaryOp _ _ =>
          operand <- unbound_name "operand" ;;
          if ast.is_Num operand then ret (Some Type_.NUMBER)
          else raise (SyntaxNotSupportError
                        "Not support unary operator except number.")
      | ast.Num _ => ret (Some Type_.NUMBER)
      | ast.Str _ => ret (Some Type_.STRING)
      | ast.List _ => ret (Some Type_.LIST)
      | ast.Call func args =>
          args_type <- mapM (get_type fuel) args ;;
          id <- attr_id func ;;
          ty <- get_function_return_type fuel id args_type ;;
          ret (Some ty)
      | ast.Name id =>
          vars <- get_self variables ;;
          attr_var_type (Variables_getitem id vars)
      | _ => ret None
      end
  end

with get_function_return_type (fuel : nat) (function_name : string)
       (args_type : list pytype) {struct fuel} : M Type_.t :=
  match fuel with
  | 0 => out_of_fuel
  | S fuel =>
      function <- get_self (fun self => Functions_getitem function_name (functions self)) ;;
      if is_system_function function_name then
        ret (system_function_return_type function_name)
      else
        match function with
        | Some function =>
            if is_args_type_match function args_type then
              ret (return_type function)
            else
              raise (ParamTypeMismatchError
                       "Function '%s' parameter type is not match"
                       function_name)
        | None =>
            body <- get_self module_body ;;
            match find (ast.is_FunctionDef_named function_name) body with
            | Some node =>
                '(generator, return_type) <- analysis_function fuel node args_type ;;
                _ <- functions_append
                       (mkFunction function_name args_type return_type generator) ;;
                ret return_type
            | None => ret Type_.STRING
            end
        end
  end

with analysis_function (fuel : nat) (function_node : ast.stmt)
       (args_type : list pytype) {struct fuel} : M (CodeGenerator * Type_.t) :=
  match fuel with
  | 0 => out_of_fuel
  | S fuel =>
      match function_node with
      | ast.FunctionDef _ _ body =>
          let variables : Variables_ := [] in
          let return_type := Type_.VOID in
          '(variables, return_type) <-
            for_each body (variables, return_type)
              (analysis_function_loop
                 (get_type fuel) (analysis_assign_node fuel)) ;;
          code <- get_self code ;;
          ret (mkCodeGenerator code None (Some variables), return_type)
      | _ => raise (AttributeError "body")
      end
  end

with analysis_assign_node (fuel : nat) (variables : Variables_)
       (node : ast.stmt) {struct fuel} : M Variables_ :=
  match fuel with
  | 0 => out_of_fuel
  | S fuel =>
      match node with
      | ast.Assign targets value =>
          if (1 <? List.length targets)%nat then
            raise (SyntaxNotSupportError "Tuple assignment is not support yet.")
          else
            match targets with
            | target :: _ =>
                id <- attr_id target ;;
                ty <- get_type fuel value ;;
                ret (Variables_append (mkVariable id ty) variables)
            | [] => raise IndexError
            end
      | _ => raise (AttributeError "targets")
      end
  end.

(** The body of the loop of [analysis] over the statements of the module.
    The table passed to [analysis_assign_node] is [self.variables]
    itself. *)
Definition analysis_loop (fuel : nat) (_ : unit) (node : ast.stmt) : M unit :=
  match node with
  | ast.Assign _ _ =>
      vars <- get_self variables ;;
      vars <- analysis_assign_node fuel vars node ;;
      set_variables vars
  | ast.Expr value =>
      if ast.is_Call value then
        _ <- get_type fuel value ;; ret tt
      else ret tt
  | ast.ImportFrom module names =>
      match analyze_cmd module names with
      | Some e => raise e
      | None => ret tt
      end
  | _ => ret tt
  end.

Definition analysis (fuel : nat) : M CodeGenerator :=
  body <- get_self module_body ;;
  _ <- for_each body tt (analysis_loop fuel) ;;
  self <- get_self (fun self => self) ;;
  ret (mkCodeGenerator (code self) (Some (functions self)) (Some (variables self))).

(** [CodeAnalyzer(code)], given the tree that [ast.parse(code)] produced. *)
Definition CodeAnalyzer_init (code : string) (body : list ast.stmt) : CodeAnalyzer :=
  mkCodeAnalyzer code body [] [].

(** [get_type(node.value)] for the value of a [return], which is [None]
    when the statement has no expression: [None] is an instance of no
    node class. *)
Definition get_type_of_return (fuel : nat) (value : option ast.expr) : M pytype :=
  match value with
  | Some value => get_type fuel value
  | None => ret None
  end.

End Methods.

(** ** Sample inputs

    A registry with the single system function [print], which returns
    nothing, and an import hook that accepts every import; and the analyzer
    of an empty module. *)
Definition sample_collaborators : Collaborators := {|
  is_system_function name := String.eqb name "print";
  system_function_return_type _ := Type_.VOID;
  analyze_cmd _ _ := None
|}.

Definition empty_analyzer : CodeAnalyzer := CodeAnalyzer_init EmptyString [].

(** The module [def f(): return 1], before any call of [f] is analysed and
    after the call [f()] is. *)
Definition module_f_returns_1 : list ast.stmt :=
  [ast.FunctionDef "f" [] [ast.Return (Some (ast.Num 1))]].

Definition analyzer_f_fresh : CodeAnalyzer :=
  CodeAnalyzer_init "def f(): return 1" module_f_returns_1.

Definition analyzer_f_cached : CodeAnalyzer :=
  mkCodeAnalyzer "def f(): return 1" module_f_returns_1
    [mkFunction "f" [] Type_.NUMBER
       (mkCodeGenerator "def f(): return 1" None (Some []))]
    [].

(** An analyzer whose cache holds [f] for one NUMBER argument, as after the
    call [f(1)]. *)
Definition analyzer_f_of_number : CodeAnalyzer :=
  mkCodeAnalyzer EmptyString []
    [mkFunction "f" [Some Type_.NUMBER] Type_.VOID (mkCodeGenerator EmptyString None (Some []))]
    [].

(** The module [def f(): return 1; return "a"], before and after the call
    [f()] is analysed. *)
Definition module_two_returns : list ast.stmt :=
  [ast.FunctionDef "f" []
     [ast.Return (Some (ast.Num 1)); ast.Return (Some (ast.Str "a"))]].

Definition analyzer_two_returns : CodeAnalyzer :=
  CodeAnalyzer_init EmptyString module_two_returns.

Definition analyzer_two_returns_cached : CodeAnalyzer :=
  mkCodeAnalyzer EmptyString module_two_returns
    [mkFunction "f" [] Type_.STRING (mkCodeGenerator EmptyString None (Some []))]
    [].

(** The module
<<
    x = 1
    def f():
        x = "s"
        return x
    f()
>>
    and the analyzer at the end of its analysis: the table of the body of
    [f] holds [x] as a STRING, and [f] is cached as returning NUMBER. *)
Definition module_local_x : list ast.stmt :=
  [ast.Assign [ast.Name "x"] (ast.Num 1);
   ast.FunctionDef "f" []
     [ast.Assign [ast.Name "x"] (ast.Str "s");
      ast.Return (Some (ast.Name "x"))];
   ast.Expr (ast.Call (ast.Name "f") [])].

Definition analyzer_local_x_done : CodeAnalyzer :=
  mkCodeAnalyzer EmptyString module_local_x
    [mkFunction "f" [] Type_.NUMBER
       (mkCodeGenerator EmptyString None
          (Some [mkVariable "x" (Some Type_.STRING)]))]
    [mkVariable "x" (Some Type_.NUMBER)].

(** The module
<<
    def f(a):
        return a
    f(1)
>> *)
Definition module_identity : list ast.stmt :=
  [ast.FunctionDef "f" ["a"] [ast.Return (Some (ast.Name "a"))];
   ast.Expr (ast.Call (ast.Name "f") [ast.Num 1])].

(** The module
<<
    def f(a):
        return 0
    f(1)
    f("x")
>> *)
Definition module_f_called_twice : list ast.stmt :=
  [ast.FunctionDef "f" ["a"] [ast.Return (Some (ast.Num 0))];
   ast.Expr (ast.Call (ast.Name "f") [ast.Num 1]);
   ast.Expr (ast.Call (ast.Name "f") [ast.Str "x"])].

(** The module [x = {}], a dictionary display being a node of a class that
    [get_type] does not know. *)
Definition module_x_dict : list ast.stmt :=
  [ast.Assign [ast.Name "x"] (ast.OtherExpr "Dict")].

(** ** What a run of a method leaves in place *)

(** Every entry of the function table of [self] is still the entry of its
    name in [self']. *)
Definition cache_preserved (self self' : CodeAnalyzer) : Prop :=
  forall name f,
    Functions_getitem name (functions self) = Some f ->
    Functions_getitem name (functions self') = Some f.

(** [self'] has the source text and the module of [self], and its cache
    entries. *)
Definition later_state (self self' : CodeAnalyzer) : Prop :=
  code self' = code self /\
  module_body self' = module_body self /\
  cache_preserved self self'.

(** As [later_state], and the module's variable table is the same. *)
Definition nested_state (self self' : CodeAnalyzer) : Prop :=
  later_state self self' /\ variables self' = variables self.

(** [self] once [f] has been appended to its function table. *)
Definition with_function (f : Function) (self : CodeAnalyzer) : CodeAnalyzer :=
  mkCodeAnalyzer (code self) (module_body self)
    (Functions_append f (functions self)) (variables self).

(** Wherever [m1] ends within its bound, [m2] ends the same way. *)
Definition refines {A} (m1 m2 : M A) : Prop :=
  forall self, m1 self <> OutOfFuel -> m2 self = m1 self.

(** No statement of the list is a [return]. *)
Definition no_return (body : list ast.stmt) : bool :=
  forallb (fun node => negb (ast.is_Return node)) body.

(** The module
<<
    x = 1
    def f():
        return x
    f()
>>
    and the analyzer at the end of its analysis: the table of the body of
    [f] is empty, the body assigning nothing, and [f] is cached as returning
    NUMBER. *)
Definition module_global_x : list ast.stmt :=
  [ast.Assign [ast.Name "x"] (ast.Num 1);
   ast.FunctionDef "f" [] [ast.Return (Some (ast.Name "x"))];
   ast.Expr (ast.Call (ast.Name "f") [])].

Definition analyzer_global_x_done : CodeAnalyzer :=
  mkCodeAnalyzer EmptyString module_global_x
    [mkFunction "f" [] Type_.NUMBER (mkCodeGenerator EmptyString None (Some []))]
    [mkVariable "x" (Some Type_.NUMBER)].

(** ** Further notions for the driver and the resolver *)

(** [with_variables vs self]: [self] once its variable table is [vs]. *)
Definition with_variables (vs : Variables_) (self : CodeAnalyzer) : CodeAnalyzer :=
  mkCodeAnalyzer (code self) (module_body self) (functions self) vs.

(** The literal nodes, whose type [get_type] reads off the class. *)
Definition is_literal (node : ast.expr) : bool :=
  match node with
  | ast.Num _ | ast.Str _ | ast.List _ => true
  | _ => false
  end.

(** The statements that the loop of [analysis] passes over: every statement
    that is no assignment, no import and no expression statement holding a
    call. *)
Definition passed_over (node : ast.stmt) : bool :=
  match node with
  | ast.Assign _ _ | ast.ImportFrom _ _ => false
  | ast.Expr value => negb (ast.is_Call value)
  | _ => true
  end.

(** Every cache entry of [self'] is an entry of [self], or is that of a
    name which is no system function and which a function definition of the
    module bears. *)
Definition gains_defined {collaborators : Collaborators}
    (self self' : CodeAnalyzer) : Prop :=
  forall name f,
    Functions_getitem name (functions self') = Some f ->
    Functions_getitem name (functions self) = Some f \/
    (is_system_function name = false /\
     find (ast.is_FunctionDef_named name) (module_body self) <> None).

(** From [self] to [self'] nothing but the cache has changed, and the cache
    has only gained entries, each for a function the module defines. *)
Definition grows {collaborators : Collaborators}
    (self self' : CodeAnalyzer) : Prop :=
  nested_state self self' /\ gains_defined self self'.

(** Every variable of the table was assigned, by name, in the body. *)
Definition assigned_in (body : list ast.stmt) (vars : Variables_) : Prop :=
  forall v, In v vars ->
            exists value, In (ast.Assign [ast.Name (name v)] value) body.

(** The module
<<
    def f(a):
        return f(1)
>>
    with nothing analysed. *)
Definition module_recursive_f : list ast.stmt :=
  [ast.FunctionDef "f" ["a"]
     [ast.Return (Some (ast.Call (ast.Name "f") [ast.Num 1]))]].

Definition analyzer_recursive_f : CodeAnalyzer :=
  CodeAnalyzer_init EmptyString module_recursive_f.

(** The module [def f(a): return a] alone, where [f] is never called. *)
Definition analyzer_uncalled_f : CodeAnalyzer :=
  CodeAnalyzer_init EmptyString
    [ast.FunctionDef "f" ["a"] [ast.Return (Some (ast.Name "a"))]].

(** The module [def f(): x = 1; return 2], and its analyzer once the call
    [f()] is resolved. *)
Definition module_f_assigns_x : list ast.stmt :=
  [ast.FunctionDef "f" []
     [ast.Assign [ast.Name "x"] (ast.Num 1); ast.Return (Some (ast.Num 2))]].

Definition analyzer_f_assigns_x : CodeAnalyzer :=
  CodeAnalyzer_init EmptyString module_f_assigns_x.

Unset Implicit Arguments.

(** ** Facts about the tables *)

Lemma Type_eqb_eq a b : Type_.eqb a b = true <-> a = b.
Proof. destruct a, b; simpl; split; congruence. Qed.

Lemma pytype_eqb_eq a b : pytype_eqb a b = true <-> a = b.
Proof.
  destruct a as [x|], b as [y|]; simpl; try (split; congruence).
  rewrite Type_eqb_eq. split; congruence.
Qed.

Lemma args_type_eqb_eq xs ys : args_type_eqb xs ys = true <-> xs = ys.
Proof.
  revert ys; induction xs as [|x xs IH]; intros [|y ys]; simpl;
    try (split; congruence).
  rewrite andb_true_iff, pytype_eqb_eq, IH. split.
  - intros [-> ->]; reflexivity.
  - intros H; injection H; auto.
Qed.

Lemma args_type_eqb_refl xs : args_type_eqb xs xs = true.
Proof. now apply args_type_eqb_eq. Qed.

Section TableFacts.
Variable entry : Type.
Variable key : entry -> string.

Lemma table_getitem_append_same e tbl :
  table_getitem key (key e) (table_append key e tbl) = Some e.
Proof.
  induction tbl as [|x rest IH]; simpl.
  - now rewrite String.eqb_refl.
  - destruct (String.eqb (key x) (key e)) eqn:E; simpl.
    + now rewrite String.eqb_refl.
    + now rewrite E.
Qed.

Lemma table_getitem_append_other e k tbl :
  key e <> k ->
  table_getitem key k (table_append key e tbl) = table_getitem key k tbl.
Proof.
  intros Hk. apply String.eqb_neq in Hk.
  induction tbl as [|x rest IH]; simpl.
  - now rewrite Hk.
  - destruct (String.eqb (key x) (key e)) eqn:E; simpl.
    + apply String.eqb_eq in E. rewrite E, Hk. reflexivity.
    + now rewrite IH.
Qed.
End TableFacts.

(** ** Facts about type inference *)
Section InferenceFacts.
Context {collaborators : Collaborators}.

(** One step of [get_type] on a binary operation. *)
Lemma get_type_BinOp fuel node_left op node_right self :
  get_type (S fuel) (ast.BinOp node_left op node_right) self =
  (left_type <- get_type fuel node_left ;;
   right_type <- get_type fuel node_right ;;
   both <- both_is_number left_type right_type ;;
   if both then ret (Some Type_.NUMBER)
   else if ast.is_Add op then ret (Some Type_.STRING)
   else raise (CompileError
                 ("Can not '" ++ ast.operator_class_name op
                    ++ "' operator with string."))) self.
Proof.
  simpl. unfold bind.
  destruct (get_type fuel node_left self) as [lt s1| |]; try reflexivity.
  destruct (get_type fuel node_right s1) as [rt s2| |]; try reflexivity.
  destruct (ast.is_Add op); reflexivity.
Qed.

Lemma both_is_number_typed tl tr self :
  both_is_number (Some tl) (Some tr) self =
  Ok (Type_.is_number tl && Type_.is_number tr) self.
Proof.
  unfold both_is_number, bind; simpl. unfold ret.
  destruct (Type_.is_number tl); reflexivity.
Qed.

Lemma is_number_both tl tr :
  Type_.is_number tl && Type_.is_number tr = true <->
  tl = Type_.NUMBER /\ tr = Type_.NUMBER.
Proof.
  rewrite andb_true_iff.
  destruct tl, tr; simpl; intuition congruence.
Qed.

(** C1, as the code has it.  Let the operands of a binary [Add] be inferred,
    without an exception, to [tl] and [tr], each a type or nothing.  The
    operation is inferred to NUMBER exactly when both are the type NUMBER.
    It is inferred to STRING, without an exception, when both are types and
    not both NUMBER, and also when the left is a type other than NUMBER and
    the right is nothing.  It raises AttributeError when the left is
    nothing, and when the left is NUMBER and the right is nothing. *)
Theorem get_type_add fuel node_left node_right self tl self1 tr self2 :
  get_type fuel node_left self = Ok tl self1 ->
  get_type fuel node_right self1 = Ok tr self2 ->
  (get_type (S fuel) (ast.BinOp node_left ast.Add node_right) self
   = Ok (Some Type_.NUMBER) self2
   <-> tl = Some Type_.NUMBER /\ tr = Some Type_.NUMBER) /\
  (forall t t',
      tl = Some t -> tr = Some t' ->
      ~ (t = Type_.NUMBER /\ t' = Type_.NUMBER) ->
      get_type (S fuel) (ast.BinOp node_left ast.Add node_right) self
      = Ok (Some Type_.STRING) self2) /\
  (forall t,
      tl = Some t -> t <> Type_.NUMBER -> tr = None ->
      get_type (S fuel) (ast.BinOp node_left ast.Add node_right) self
      = Ok (Some Type_.STRING) self2) /\
  (tl = None \/ (tl = Some Type_.NUMBER /\ tr = None) ->
   get_type (S fuel) (ast.BinOp node_left ast.Add node_right) self
   = Raise (AttributeError "is_number")).
Proof.
  intros Hl Hr. rewrite get_type_BinOp. unfold bind. rewrite Hl, Hr.
  destruct tl as [[]|], tr as [[]|]; cbn;
    repeat apply conj; try split; intros;
    repeat match goal with
           | H : _ /\ _ |- _ => destruct H
           | H : _ \/ _ |- _ => destruct H
           | H : Some _ = Some _ |- _ => injection H as H
           end;
    subst; try discriminate; try reflexivity; try congruence;
    try (exfalso; intuition congruence); try (split; reflexivity).
Qed.

(** C2, as the code has it.  Let the operands of a binary operation other
    than [Add] be inferred, without an exception, to [tl] and [tr], each a
    type or nothing.  The operation is inferred to NUMBER when both are the
    type NUMBER.  It raises the CompileError whose message names the class
    of the operator when both are types and not both NUMBER, and also when
    the left is a type other than NUMBER and the right is nothing.  It
    raises AttributeError, not CompileError, when the left is nothing, and
    when the left is NUMBER and the right is nothing.  It is never inferred
    to STRING. *)
Theorem get_type_non_add fuel node_left op node_right self tl self1 tr self2 :
  op <> ast.Add ->
  get_type fuel node_left self = Ok tl self1 ->
  get_type fuel node_right self1 = Ok tr self2 ->
  (tl = Some Type_.NUMBER /\ tr = Some Type_.NUMBER ->
   get_type (S fuel) (ast.BinOp node_left op node_right) self
   = Ok (Some Type_.NUMBER) self2) /\
  (forall t t',
      tl = Some t -> tr = Some t' ->
      ~ (t = Type_.NUMBER /\ t' = Type_.NUMBER) ->
      get_type (S fuel) (ast.BinOp node_left op node_right) self
      = Raise (CompileError
                 ("Can not '" ++ ast.operator_class_name op
                    ++ "' operator with string."))) /\
  (forall t,
      tl = Some t -> t <> Type_.NUMBER -> tr = None ->
      get_type (S fuel) (ast.BinOp node_left op node_right) self
      = Raise (CompileError
                 ("Can not '" ++ ast.operator_class_name op
                    ++ "' operator with string."))) /\
  (tl = None \/ (tl = Some Type_.NUMBER /\ tr = None) ->
   get_type (S fuel) (ast.BinOp node_left op node_right) self
   = Raise (AttributeError "is_number")) /\
  (forall self', get_type (S fuel) (ast.BinOp node_left op node_right) self
                 <> Ok (Some Type_.STRING) self').
Proof.
  intros Hop Hl Hr. rewrite get_type_BinOp. unfold bind. rewrite Hl, Hr.
  assert (Hadd : ast.is_Add op = false) by (destruct op; simpl; congruence).
  destruct tl as [[]|], tr as [[]|]; cbn; rewrite ?Hadd;
    repeat apply conj; intros;
    repeat match goal with
           | H : _ /\ _ |- _ => destruct H
           | H : _ \/ _ |- _ => destruct H
           | H : Some _ = Some _ |- _ => injection H as H
           end;
    subst; try discriminate; try reflexivity; try congruence;
    try (exfalso; intuition congruence).
Qed.

(** C8.  On every unary operation [get_type] raises NameError: the test
    reads the identifier [operand], which is bound nowhere, in place of
    [node.operand].  Neither NUMBER nor SyntaxNotSupportError is ever the
    outcome. *)
Theorem get_type_unary_name_error fuel op operand self :
  get_type (S fuel) (ast.UnaryOp op operand) self = Raise (NameError "operand").
Proof. reflexivity. Qed.

(** A reference to a name without an entry in the analyzer's variable
    table, the one table that [get_type] reads, makes the inference fail
    with an exception; no type is returned. *)
Theorem get_type_unassigned_name fuel id self :
  Variables_getitem id (variables self) = None ->
  get_type (S fuel) (ast.Name id) self = Raise (AttributeError "var_type").
Proof.
  intros H. simpl. unfold bind, get_self. rewrite H. reflexivity.
Qed.

End InferenceFacts.

(** C1, as the spec has it, fails: in [1 + {}] the right operand is
    inferred, without an exception, to nothing, so not to NUMBER, and the
    addition raises AttributeError in place of returning STRING. *)
Lemma add_of_untyped_operand_raises :
  get_type (collaborators := sample_collaborators) 1 (ast.Num 1) empty_analyzer
  = Ok (Some Type_.NUMBER) empty_analyzer /\
  get_type (collaborators := sample_collaborators) 1
    (ast.OtherExpr "Dict") empty_analyzer
  = Ok None empty_analyzer /\
  get_type (collaborators := sample_collaborators) 2
    (ast.BinOp (ast.Num 1) ast.Add (ast.OtherExpr "Dict")) empty_analyzer
  = Raise (AttributeError "is_number").
Proof. repeat split. Qed.

(** [1 + "a"] is a STRING. *)
Lemma get_type_add_witness :
  get_type (collaborators := sample_collaborators) 1 (ast.Num 1) empty_analyzer
  = Ok (Some Type_.NUMBER) empty_analyzer /\
  get_type (collaborators := sample_collaborators) 1 (ast.Str "a") empty_analyzer
  = Ok (Some Type_.STRING) empty_analyzer /\
  get_type (collaborators := sample_collaborators) 2
    (ast.BinOp (ast.Num 1) ast.Add (ast.Str "a")) empty_analyzer
  = Ok (Some Type_.STRING) empty_analyzer.
Proof.
  split; [reflexivity | split; [reflexivity |]].
  refine (proj1 (proj2 (get_type_add (collaborators := sample_collaborators)
                          1 (ast.Num 1) (ast.Str "a")
                          empty_analyzer (Some Type_.NUMBER) empty_analyzer
                          (Some Type_.STRING) empty_analyzer _ _))
            Type_.NUMBER Type_.STRING _ _ _);
    [reflexivity | reflexivity | reflexivity | reflexivity |
     intros [_ H]; discriminate H].
Defined.

(** C2, as the spec has it, fails: in [1 * {}] the right operand is
    inferred, without an exception, to nothing, so not to NUMBER, and the
    multiplication raises AttributeError, not the CompileError that names
    the operator. *)
Lemma non_add_of_untyped_operand_raises :
  get_type (collaborators := sample_collaborators) 1 (ast.Num 1) empty_analyzer
  = Ok (Some Type_.NUMBER) empty_analyzer /\
  get_type (collaborators := sample_collaborators) 1
    (ast.OtherExpr "Dict") empty_analyzer
  = Ok None empty_analyzer /\
  get_type (collaborators := sample_collaborators) 2
    (ast.BinOp (ast.Num 1) ast.Mult (ast.OtherExpr "Dict")) empty_analyzer
  = Raise (AttributeError "is_number").
Proof. repeat split. Qed.

(** [2 * "a"] raises the CompileError that names [Mult]. *)
Lemma get_type_non_add_witness :
  ast.Mult <> ast.Add /\
  get_type (collaborators := sample_collaborators) 2
    (ast.BinOp (ast.Num 2) ast.Mult (ast.Str "a")) empty_analyzer
  = Raise (CompileError "Can not 'Mult' operator with string.").
Proof.
  split; [discriminate |].
  refine (proj1 (proj2 (get_type_non_add (collaborators := sample_collaborators)
                          1 (ast.Num 2) ast.Mult (ast.Str "a")
                          empty_analyzer (Some Type_.NUMBER) empty_analyzer
                          (Some Type_.STRING) empty_analyzer _ _ _))
            Type_.NUMBER Type_.STRING _ _ _);
    [discriminate | reflexivity | reflexivity | reflexivity | reflexivity |
     intros [_ H]; discriminate H].
Defined.

(** A reference to [y] in a module that assigns nothing fails. *)
Lemma get_type_unassigned_name_witness :
  Variables_getitem "y" (variables empty_analyzer) = None /\
  get_type (collaborators := sample_collaborators) 1 (ast.Name "y") empty_analyzer
  = Raise (AttributeError "var_type").
Proof.
  split; [reflexivity |].
  apply (get_type_unassigned_name 0 "y" empty_analyzer); reflexivity.
Defined.

(** ** Facts about the monad *)

Lemma bind_Ok {A B} (m : M A) (k : A -> M B) self b self' :
  bind m k self = Ok b self' ->
  exists a s1, m self = Ok a s1 /\ k a s1 = Ok b self'.
Proof.
  unfold bind. destruct (m self) as [a s1| |]; try discriminate.
  intros H. now exists a, s1.
Qed.

Lemma bind_intro {A B} (m : M A) (k : A -> M B) self a s1 res :
  m self = Ok a s1 -> k a s1 = res -> bind m k self = res.
Proof. unfold bind. intros -> H. exact H. Qed.

Lemma ret_Ok {A} (a b : A) self self' :
  ret a self = Ok b self' -> b = a /\ self' = self.
Proof. unfold ret. intros [= -> ->]. auto. Qed.

Lemma get_self_Ok {A} (field : CodeAnalyzer -> A) self a self' :
  get_self field self = Ok a self' -> a = field self /\ self' = self.
Proof. unfold get_self. intros [= <- <-]. auto. Qed.

Lemma attr_is_number_Ok ty self b self' :
  attr_is_number ty self = Ok b self' -> self' = self.
Proof. destruct ty; simpl; unfold ret, raise; congruence. Qed.

Lemma both_is_number_Ok tl tr self b self' :
  both_is_number tl tr self = Ok b self' -> self' = self.
Proof.
  unfold both_is_number. intros H.
  apply bind_Ok in H. destruct H as (l & s1 & Hl & H).
  apply attr_is_number_Ok in Hl. subst s1.
  destruct l.
  - now apply attr_is_number_Ok in H.
  - now apply ret_Ok in H.
Qed.

Lemma attr_id_Ok node self id self' :
  attr_id node self = Ok id self' -> node = ast.Name id /\ self' = self.
Proof. destruct node; simpl; unfold ret, raise; try discriminate. intros [= -> ->]. auto. Qed.

Lemma attr_var_type_Ok entry self ty self' :
  attr_var_type entry self = Ok ty self' ->
  exists v, entry = Some v /\ ty = var_type v /\ self' = self.
Proof.
  destruct entry as [v|]; simpl; unfold ret, raise; try discriminate.
  intros [= <- <-]. now exists v.
Qed.

Ltac bind_inv H :=
  let a := fresh "a" in
  let s := fresh "s" in
  let Ha := fresh "Ha" in
  apply bind_Ok in H; destruct H as (a & s & Ha & H).

(** A relation between states that every step of a loop establishes holds
    across the loop. *)
Section Loops.
Variable R : CodeAnalyzer -> CodeAnalyzer -> Prop.
Hypothesis R_refl : forall s, R s s.
Hypothesis R_trans : forall s1 s2 s3, R s1 s2 -> R s2 s3 -> R s1 s3.

Lemma mapM_rel {A B} (f : A -> M B) :
  (forall x s y s', f x s = Ok y s' -> R s s') ->
  forall xs s ys s', mapM f xs s = Ok ys s' -> R s s'.
Proof.
  intros Hf. induction xs as [|x xs IH]; simpl; intros s ys s' H.
  - apply ret_Ok in H. destruct H as [_ ->]. apply R_refl.
  - bind_inv H. bind_inv H. apply ret_Ok in H. destruct H as [_ ->].
    eapply R_trans; eauto.
Qed.

Lemma for_each_rel {A S} (body : S -> A -> M S) :
  (forall acc x s acc' s', body acc x s = Ok acc' s' -> R s s') ->
  forall xs acc s acc' s', for_each xs acc body s = Ok acc' s' -> R s s'.
Proof.
  intros Hb. induction xs as [|x xs IH]; simpl; intros acc s acc' s' H.
  - apply ret_Ok in H. destruct H as [_ ->]. apply R_refl.
  - bind_inv H. eapply R_trans; eauto.
Qed.
End Loops.

Lemma for_each_app {A S} (body : S -> A -> M S) (xs ys : list A) acc self :
  for_each (xs ++ ys)%list acc body self =
  (acc' <- for_each xs acc body ;; for_each ys acc' body) self.
Proof.
  revert acc self. induction xs as [|x xs IH]; intros acc self; simpl.
  - reflexivity.
  - unfold bind. destruct (body acc x self) as [a s| |]; try reflexivity.
    rewrite IH. reflexivity.
Qed.

(** ** Facts about the states of a run *)

Lemma cache_preserved_refl self : cache_preserved self self.
Proof. intros name f H. exact H. Qed.

Lemma cache_preserved_trans s1 s2 s3 :
  cache_preserved s1 s2 -> cache_preserved s2 s3 -> cache_preserved s1 s3.
Proof. intros H12 H23 name f H. auto. Qed.

Lemma later_state_refl self : later_state self self.
Proof. repeat split. apply cache_preserved_refl. Qed.

Lemma later_state_trans s1 s2 s3 :
  later_state s1 s2 -> later_state s2 s3 -> later_state s1 s3.
Proof.
  intros (C1 & B1 & F1) (C2 & B2 & F2). repeat split; try congruence.
  eapply cache_preserved_trans; eauto.
Qed.

Lemma nested_state_refl self : nested_state self self.
Proof. split; [apply later_state_refl | reflexivity]. Qed.

Lemma nested_state_trans s1 s2 s3 :
  nested_state s1 s2 -> nested_state s2 s3 -> nested_state s1 s3.
Proof.
  intros [L1 V1] [L2 V2]. split; [|congruence].
  eapply later_state_trans; eauto.
Qed.

(** ** Facts about the runs of the methods *)
Section RunFacts.
Context {collaborators : Collaborators}.

Lemma get_type_Call fuel func args self :
  get_type (S fuel) (ast.Call func args) self =
  (args_type <- mapM (get_type fuel) args ;;
   id <- attr_id func ;;
   ty <- get_function_return_type fuel id args_type ;;
   ret (Some ty)) self.
Proof. reflexivity. Qed.

Lemma get_type_Name fuel id self :
  get_type (S fuel) (ast.Name id) self =
  attr_var_type (Variables_getitem id (variables self)) self.
Proof. reflexivity. Qed.

(** One step of [get_function_return_type], branch by branch. *)
Lemma get_function_return_type_S fuel name args self :
  get_function_return_type (S fuel) name args self =
  if is_system_function name then
    Ok (system_function_return_type name) self
  else
    match Functions_getitem name (functions self) with
    | Some f =>
        if is_args_type_match f args then Ok (return_type f) self
        else Raise (ParamTypeMismatchError
                      "Function '%s' parameter type is not match" name)
    | None =>
        match find (ast.is_FunctionDef_named name) (module_body self) with
        | Some node =>
            ('(generator, return_type) <- analysis_function fuel node args ;;
             _ <- functions_append (mkFunction name args return_type generator) ;;
             ret return_type) self
        | None => Ok Type_.STRING self
        end
    end.
Proof.
  simpl. unfold bind, get_self.
  destruct (is_system_function name); [reflexivity|].
  destruct (Functions_getitem name (functions self)) as [f|].
  - destruct (is_args_type_match f args); reflexivity.
  - destruct (find (ast.is_FunctionDef_named name) (module_body self));
      reflexivity.
Qed.

Lemma analysis_function_S fuel name params body args self :
  analysis_function (S fuel) (ast.FunctionDef name params body) args self =
  ('(variables, return_type) <-
     for_each body ([], Type_.VOID)
       (analysis_function_loop (get_type fuel) (analysis_assign_node fuel)) ;;
   code <- get_self code ;;
   ret (mkCodeGenerator code None (Some variables), return_type)) self.
Proof. reflexivity. Qed.

Lemma analysis_assign_node_S fuel vars target value self :
  analysis_assign_node (S fuel) vars (ast.Assign [target] value) self =
  (id <- attr_id target ;;
   ty <- get_type fuel value ;;
   ret (Variables_append (mkVariable id ty) vars)) self.
Proof. reflexivity. Qed.

(** The loop of [analysis_function] keeps what its two callees keep. *)
Lemma analysis_function_loop_nested get_type_n assign_n :
  (forall node self ty self',
      get_type_n node self = Ok ty self' -> nested_state self self') ->
  (forall vars node self vars' self',
      assign_n vars node self = Ok vars' self' -> nested_state self self') ->
  forall locals node self locals' self',
    analysis_function_loop get_type_n assign_n locals node self = Ok locals' self' ->
    nested_state self self'.
Proof.
  intros Ht Hn [vars rt] node self locals' self' H.
  destruct node; simpl in H;
    try (apply ret_Ok in H; destruct H as [_ ->]; apply nested_state_refl).
  - bind_inv H. apply ret_Ok in H. destruct H as [_ ->]. eauto.
  - bind_inv H. apply ret_Ok in H. destruct H as [_ ->].
    destruct value as [value|].
    + eauto.
    + apply ret_Ok in Ha. destruct Ha as [_ ->]. apply nested_state_refl.
Qed.

(** No method changes the source text, the module or the module's variable
    table, and every cache entry stays the entry of its name. *)
Lemma methods_nested_state fuel :
  (forall node self ty self',
      get_type fuel node self = Ok ty self' -> nested_state self self') /\
  (forall name args self ty self',
      get_function_return_type fuel name args self = Ok ty self' ->
      nested_state self self') /\
  (forall node args self r self',
      analysis_function fuel node args self = Ok r self' ->
      nested_state self self') /\
  (forall vars node self vars' self',
      analysis_assign_node fuel vars node self = Ok vars' self' ->
      nested_state self self').
Proof.
  induction fuel as [|fuel (IHt & IHf & IHa & IHn)].
  { repeat split; intros; discriminate. }
  repeat apply conj.
  - intros node self ty self' H. destruct node;
      try (apply ret_Ok in H; destruct H as [_ ->]; apply nested_state_refl).
    + rewrite get_type_BinOp in H.
      bind_inv H. bind_inv H. bind_inv H.
      apply both_is_number_Ok in Ha1. subst.
      assert (self' = s0) as ->.
      { destruct a1; [now apply ret_Ok in H|].
        destruct (ast.is_Add op); [now apply ret_Ok in H | discriminate]. }
      eapply nested_state_trans; eauto.
    + discriminate.
    + rewrite get_type_Call in H.
      bind_inv H. bind_inv H. bind_inv H.
      apply ret_Ok in H. destruct H as [_ ->].
      apply attr_id_Ok in Ha0. destruct Ha0 as [_ ->].
      eapply nested_state_trans; [|eauto].
      eapply mapM_rel; eauto using nested_state_refl, nested_state_trans.
    + rewrite get_type_Name in H.
      apply attr_var_type_Ok in H. destruct H as (v & _ & _ & ->).
      apply nested_state_refl.
  - intros name args self ty self' H.
    rewrite get_function_return_type_S in H.
    destruct (is_system_function name).
    { injection H as _ <-. apply nested_state_refl. }
    destruct (Functions_getitem name (functions self)) as [f|] eqn:Hf.
    { destruct (is_args_type_match f args); [|discriminate].
      injection H as _ <-. apply nested_state_refl. }
    destruct (find _ (module_body self)) as [node|].
    2:{ injection H as _ <-. apply nested_state_refl. }
    bind_inv H. destruct a as [g rt]. bind_inv H.
    apply ret_Ok in H. destruct H as [_ ->].
    pose proof (IHa _ _ _ _ _ Ha) as Hs.
    injection Ha0 as _ <-.
    destruct Hs as [(Hc & Hb & Hcache) Hv].
    repeat split; simpl; auto.
    intros n f Hn'. unfold Functions_getitem, Functions_append. simpl.
    rewrite table_getitem_append_other; [now apply Hcache|].
    simpl. intros <-. unfold Functions_getitem in *. congruence.
  - intros node args self r self' H.
    destruct node; try discriminate.
    rewrite analysis_function_S in H.
    bind_inv H. destruct a as [vars rt]. bind_inv H.
    apply get_self_Ok in Ha0. destruct Ha0 as [_ ->].
    apply ret_Ok in H. destruct H as [_ ->].
    eapply for_each_rel; [| | | exact Ha];
      eauto using nested_state_refl, nested_state_trans.
    intros acc x s1 acc' s1'. apply analysis_function_loop_nested; auto.
  - intros vars node self vars' self' H.
    destruct node; try discriminate.
    simpl in H.
    destruct (1 <? List.length targets)%nat; [discriminate|].
    destruct targets as [|target rest]; [discriminate|].
    bind_inv H. bind_inv H.
    apply attr_id_Ok in Ha. destruct Ha as [_ ->].
    apply ret_Ok in H. destruct H as [_ ->]. eauto.
Qed.

(** The loop of [analysis] changes the module's variable table only. *)
Lemma analysis_loop_later fuel u node self u' self' :
  analysis_loop fuel u node self = Ok u' self' -> later_state self self'.
Proof.
  intros H. destruct node; simpl in H;
    try (apply ret_Ok in H; destruct H as [_ ->]; apply later_state_refl).
  - bind_inv H. apply get_self_Ok in Ha. destruct Ha as [-> ->].
    bind_inv H.
    apply (proj2 (proj2 (proj2 (methods_nested_state fuel)))) in Ha.
    destruct Ha as [(Hc & Hb & Hf) _].
    unfold set_variables in H. injection H as _ <-.
    repeat split; simpl; auto.
  - destruct (ast.is_Call value).
    + bind_inv H. apply ret_Ok in H. destruct H as [_ ->].
      apply (proj1 (methods_nested_state fuel)) in Ha. apply Ha.
    + apply ret_Ok in H. destruct H as [_ ->]. apply later_state_refl.
  - destruct (analyze_cmd module names); [discriminate|].
    apply ret_Ok in H. destruct H as [_ ->]. apply later_state_refl.
Qed.

Lemma find_no_FunctionDef name body :
  (forall node, In node body -> ast.is_FunctionDef_named name node = false) ->
  find (ast.is_FunctionDef_named name) body = None.
Proof.
  induction body as [|node body IH]; simpl; intros H; [reflexivity|].
  rewrite (H node) by auto. apply IH. intros n Hn. apply H. auto.
Qed.

(** A cached entry whose argument types are those of the call answers the
    call, whatever the fuel. *)
Lemma resolve_from_cache fuel name args self f :
  is_system_function name = false ->
  Functions_getitem name (functions self) = Some f ->
  args_type f = args ->
  get_function_return_type (S fuel) name args self = Ok (return_type f) self.
Proof.
  intros Hsys Hf Hargs. rewrite get_function_return_type_S, Hsys, Hf.
  unfold is_args_type_match. rewrite Hargs, args_type_eqb_refl. reflexivity.
Qed.

(** C4.  After a resolution of [name] for [args] has returned [ty]:
    resolving the same signature again returns [ty] and leaves the analyzer
    as it is, with a bound of one call, which no walk of a function body
    fits in; when the name is cached and no system function, [ty] is the
    return type of its entry, whose argument types are [args]; and the
    answer is the same after any further statements of the module have been
    analysed. *)
Theorem resolve_again fuel name args self ty self1 :
  get_function_return_type fuel name args self = Ok ty self1 ->
  (forall fuel',
      get_function_return_type (S fuel') name args self1 = Ok ty self1) /\
  (forall f,
      is_system_function name = false ->
      Functions_getitem name (functions self1) = Some f ->
      return_type f = ty /\ args_type f = args) /\
  (forall f fuel1 stmts u self2,
      Functions_getitem name (functions self1) = Some f ->
      for_each stmts tt (analysis_loop fuel1) self1 = Ok u self2 ->
      forall fuel',
        get_function_return_type (S fuel') name args self2 = Ok ty self2).
Proof.
  intros H. destruct fuel as [|fuel]; [discriminate|].
  rewrite get_function_return_type_S in H.
  destruct (is_system_function name) eqn:Hsys.
  { injection H as <- <-. repeat apply conj.
    - intros fuel'. now rewrite get_function_return_type_S, Hsys.
    - discriminate.
    - intros f fuel1 stmts u self2 _ _ fuel'.
      now rewrite get_function_return_type_S, Hsys. }
  assert (Hlater : forall fuel1 stmts u self2,
             for_each stmts tt (analysis_loop fuel1) self1 = Ok u self2 ->
             cache_preserved self1 self2).
  { intros fuel1 stmts u self2 Hrun.
    enough (later_state self1 self2) as (_ & _ & Hc) by exact Hc.
    eapply for_each_rel; [| | | exact Hrun];
      eauto using later_state_refl, later_state_trans, analysis_loop_later. }
  assert (Hcached : forall f,
             Functions_getitem name (functions self1) = Some f ->
             return_type f = ty -> args_type f = args ->
             (forall fuel',
                 get_function_return_type (S fuel') name args self1 = Ok ty self1) /\
             (forall f0, Functions_getitem name (functions self1) = Some f0 ->
                         return_type f0 = ty /\ args_type f0 = args) /\
             (forall f0 fuel1 stmts u self2,
                 Functions_getitem name (functions self1) = Some f0 ->
                 for_each stmts tt (analysis_loop fuel1) self1 = Ok u self2 ->
                 forall fuel',
                   get_function_return_type (S fuel') name args self2 = Ok ty self2)).
  { intros f Hf <- Hargs. repeat apply conj.
    - intros fuel'. now apply resolve_from_cache.
    - intros f0 Hf0. rewrite Hf in Hf0. injection Hf0 as <-. auto.
    - intros f0 fuel1 stmts u self2 _ Hrun fuel'.
      apply resolve_from_cache; auto.
      eapply Hlater; eauto. }
  destruct (Functions_getitem name (functions self)) as [f|] eqn:Hf.
  { destruct (is_args_type_match f args) eqn:Hm; [|discriminate].
    injection H as <- <-.
    destruct (Hcached f) as (A & B & C); auto.
    now apply args_type_eqb_eq. }
  destruct (find _ (module_body self)) as [node|] eqn:Hfind.
  - bind_inv H. destruct a as [g rt]. bind_inv H.
    apply ret_Ok in H. destruct H as [-> ->].
    unfold functions_append in Ha0. injection Ha0 as _ <-.
    destruct (Hcached (mkFunction name args rt g)) as (A & B & C); auto.
    exact (table_getitem_append_same _ function_name
             (mkFunction name args rt g) (functions s)).
  - injection H as <- <-. repeat apply conj.
    + intros fuel'. now rewrite get_function_return_type_S, Hsys, Hf, Hfind.
    + intros f _ Hf'. congruence.
    + intros f fuel1 stmts u self2 Hf'. congruence.
Qed.

(** C6.  For a name that is no system function and has the cache entry [f]:
    a call whose argument types are those of [f] returns the cached return
    type, and a call with any other argument types raises
    ParamTypeMismatchError carrying the name of the function. *)
Theorem resolve_cached fuel name args self f :
  is_system_function name = false ->
  Functions_getitem name (functions self) = Some f ->
  (args_type f = args ->
   get_function_return_type (S fuel) name args self = Ok (return_type f) self) /\
  (args_type f <> args ->
   get_function_return_type (S fuel) name args self
   = Raise (ParamTypeMismatchError
              "Function '%s' parameter type is not match" name)).
Proof.
  intros Hsys Hf. split.
  - now apply resolve_from_cache.
  - intros Hne. rewrite get_function_return_type_S, Hsys, Hf.
    destruct (is_args_type_match f args) eqn:Hm; [|reflexivity].
    apply args_type_eqb_eq in Hm. contradiction.
Qed.

(** C7.  A name that is no system function, has no cache entry and names no
    function definition among the statements of the module resolves to
    STRING, without an exception and without a change of the analyzer. *)
Theorem resolve_unknown fuel name args self :
  is_system_function name = false ->
  Functions_getitem name (functions self) = None ->
  (forall node, In node (module_body self) ->
                ast.is_FunctionDef_named name node = false) ->
  get_function_return_type (S fuel) name args self = Ok Type_.STRING self.
Proof.
  intros Hsys Hf Hdef.
  rewrite get_function_return_type_S, Hsys, Hf.
  now rewrite find_no_FunctionDef.
Qed.

End RunFacts.

(** In [def f(): return 1], a second resolution of [f()] is answered within
    a bound of one call. *)
Lemma resolve_again_witness :
  get_function_return_type (collaborators := sample_collaborators)
    3 "f" [] analyzer_f_fresh = Ok Type_.NUMBER analyzer_f_cached /\
  get_function_return_type (collaborators := sample_collaborators)
    1 "f" [] analyzer_f_cached = Ok Type_.NUMBER analyzer_f_cached.
Proof.
  split; [reflexivity |].
  refine (proj1 (resolve_again 3 "f" [] analyzer_f_fresh
                   Type_.NUMBER analyzer_f_cached _) 0).
  reflexivity.
Defined.

(** With [f] cached for one NUMBER argument, [f("x")] raises. *)
Lemma resolve_cached_witness :
  is_system_function (Collaborators := sample_collaborators) "f" = false /\
  Functions_getitem "f" (functions analyzer_f_of_number)
  = Some (mkFunction "f" [Some Type_.NUMBER] Type_.VOID
            (mkCodeGenerator EmptyString None (Some []))) /\
  get_function_return_type (collaborators := sample_collaborators)
    1 "f" [Some Type_.STRING] analyzer_f_of_number
  = Raise (ParamTypeMismatchError "Function '%s' parameter type is not match" "f").
Proof.
  split; [reflexivity | split; [reflexivity |]].
  apply (resolve_cached 0 "f" [Some Type_.STRING] analyzer_f_of_number
           (mkFunction "f" [Some Type_.NUMBER] Type_.VOID
              (mkCodeGenerator EmptyString None (Some []))));
    [reflexivity | reflexivity | discriminate].
Defined.

(** [g(1)] in a module that defines only [f] is a STRING. *)
Lemma resolve_unknown_witness :
  is_system_function (Collaborators := sample_collaborators) "g" = false /\
  Functions_getitem "g" (functions analyzer_f_fresh) = None /\
  get_function_return_type (collaborators := sample_collaborators)
    1 "g" [Some Type_.NUMBER] analyzer_f_fresh = Ok Type_.STRING analyzer_f_fresh.
Proof.
  split; [reflexivity | split; [reflexivity |]].
  apply (resolve_unknown 0 "g" [Some Type_.NUMBER] analyzer_f_fresh);
    [reflexivity | reflexivity |].
  intros node [<- | []]. reflexivity.
Defined.

(** ** The bound on nested calls

    A run that ends within a bound ends the same way within any larger
    one: the bound only cuts runs short, it never changes an outcome. *)

Lemma refines_refl {A} (m : M A) : refines m m.
Proof. intros self _. reflexivity. Qed.

Lemma refines_bind {A B} (m1 m2 : M A) (k1 k2 : A -> M B) :
  refines m1 m2 -> (forall a, refines (k1 a) (k2 a)) ->
  refines (bind m1 k1) (bind m2 k2).
Proof.
  intros Hm Hk self H. unfold bind in *.
  destruct (m1 self) as [a s1| |] eqn:E.
  - rewrite (Hm self), E by (rewrite E; discriminate). now apply Hk.
  - rewrite (Hm self), E by (rewrite E; discriminate). reflexivity.
  - contradiction.
Qed.

Lemma refines_mapM {A B} (f1 f2 : A -> M B) :
  (forall x, refines (f1 x) (f2 x)) ->
  forall xs, refines (mapM f1 xs) (mapM f2 xs).
Proof.
  intros Hf. induction xs as [|x xs IH]; simpl.
  - apply refines_refl.
  - apply refines_bind; [apply Hf | intros y].
    apply refines_bind; [apply IH | intros ys; apply refines_refl].
Qed.

Lemma refines_for_each {A S} (b1 b2 : S -> A -> M S) :
  (forall acc x, refines (b1 acc x) (b2 acc x)) ->
  forall xs acc, refines (for_each xs acc b1) (for_each xs acc b2).
Proof.
  intros Hb. induction xs as [|x xs IH]; simpl; intros acc.
  - apply refines_refl.
  - apply refines_bind; [apply Hb | intros acc'; apply IH].
Qed.

Section Fuel.
Context {collaborators : Collaborators}.

Lemma refines_analysis_function_loop gt1 gt2 as1 as2 :
  (forall node, refines (gt1 node) (gt2 node)) ->
  (forall vars node, refines (as1 vars node) (as2 vars node)) ->
  forall locals node,
    refines (analysis_function_loop gt1 as1 locals node)
            (analysis_function_loop gt2 as2 locals node).
Proof.
  intros Hgt Has [vars rt] node. destruct node; simpl; try apply refines_refl.
  - apply refines_bind; [apply Has | intros vs; apply refines_refl].
  - apply refines_bind; [| intros r; apply refines_refl].
    destruct value; [apply Hgt | apply refines_refl].
Qed.

Lemma methods_fuel_step fuel :
  (forall node, refines (get_type fuel node) (get_type (S fuel) node)) /\
  (forall name args,
      refines (get_function_return_type fuel name args)
              (get_function_return_type (S fuel) name args)) /\
  (forall node args,
      refines (analysis_function fuel node args)
              (analysis_function (S fuel) node args)) /\
  (forall vars node,
      refines (analysis_assign_node fuel vars node)
              (analysis_assign_node (S fuel) vars node)).
Proof.
  induction fuel as [|fuel (IHt & IHf & IHa & IHn)].
  { repeat apply conj; intros; intros self H; exfalso; apply H; reflexivity. }
  repeat apply conj.
  - intros node. destruct node; try apply refines_refl.
    + apply refines_bind; [apply IHt | intros left_type].
      apply refines_bind; [apply IHt | intros right_type].
      apply refines_refl.
    + apply refines_bind; [apply refines_mapM, IHt | intros args_type].
      apply refines_bind; [apply refines_refl | intros id].
      apply refines_bind; [apply IHf | intros ty; apply refines_refl].
  - intros name args.
    apply refines_bind; [apply refines_refl | intros function].
    destruct (is_system_function name); [apply refines_refl|].
    destruct function as [f|]; [apply refines_refl|].
    apply refines_bind; [apply refines_refl | intros body].
    destruct (find (ast.is_FunctionDef_named name) body); [|apply refines_refl].
    apply refines_bind; [apply IHa | intros [g rt]; apply refines_refl].
  - intros node args. destruct node; try apply refines_refl.
    apply refines_bind; [| intros [vars rt]; apply refines_refl].
    apply refines_for_each. now apply refines_analysis_function_loop.
  - intros vars node. destruct node; try apply refines_refl.
    simpl. destruct (1 <? List.length targets)%nat; [apply refines_refl|].
    destruct targets as [|target rest]; [apply refines_refl|].
    apply refines_bind; [apply refines_refl | intros id].
    apply refines_bind; [apply IHt | intros ty; apply refines_refl].
Qed.

(** An outcome of [get_type] within a bound is its outcome within every
    larger bound. *)
Lemma get_type_fuel_mono fuel fuel' node self :
  fuel <= fuel' ->
  get_type fuel node self <> OutOfFuel ->
  get_type fuel' node self = get_type fuel node self.
Proof.
  induction 1 as [|fuel' Hle IH]; intros H; [reflexivity|].
  rewrite <- (IH H).
  apply (proj1 (methods_fuel_step fuel')). now rewrite (IH H).
Qed.

(** Likewise for [get_function_return_type]. *)
Lemma get_function_return_type_fuel_mono fuel fuel' name args self :
  fuel <= fuel' ->
  get_function_return_type fuel name args self <> OutOfFuel ->
  get_function_return_type fuel' name args self
  = get_function_return_type fuel name args self.
Proof.
  induction 1 as [|fuel' Hle IH]; intros H; [reflexivity|].
  rewrite <- (IH H).
  apply (proj1 (proj2 (methods_fuel_step fuel'))). now rewrite (IH H).
Qed.

End Fuel.

(** ** Facts about the analysis of function bodies *)
Section BodyFacts.
Context {collaborators : Collaborators}.

(** Statements other than [return] leave the loop's [return_type] alone. *)
Lemma for_each_no_return get_type_n assign_n body :
  no_return body = true ->
  forall vars rt self vars' rt' self',
    for_each body (vars, rt) (analysis_function_loop get_type_n assign_n) self
    = Ok (vars', rt') self' ->
    rt' = rt.
Proof.
  induction body as [|node body IH]; simpl; intros Hnr vars rt self vars' rt' self' H.
  - apply ret_Ok in H. destruct H as [H _]. congruence.
  - apply andb_true_iff in Hnr. destruct Hnr as [Hnode Hnr].
    bind_inv H. destruct a as [vars1 rt1].
    assert (rt1 = rt) as ->.
    { destruct node; simpl in Ha, Hnode; try discriminate;
        try (apply ret_Ok in Ha; destruct Ha as [Ha _]; congruence).
      bind_inv Ha. apply ret_Ok in Ha. destruct Ha as [Ha _]. congruence. }
    eapply IH; eauto.
Qed.

(** A first resolution of a defined function caches what
    [analysis_function] returned. *)
Lemma resolve_first fuel name args self node g rt self1 :
  is_system_function name = false ->
  Functions_getitem name (functions self) = None ->
  find (ast.is_FunctionDef_named name) (module_body self) = Some node ->
  analysis_function fuel node args self = Ok (g, rt) self1 ->
  get_function_return_type (S fuel) name args self
  = Ok rt (with_function (mkFunction name args rt g) self1).
Proof.
  intros Hsys Hf Hfind Ha.
  rewrite get_function_return_type_S, Hsys, Hf, Hfind.
  unfold bind. rewrite Ha. reflexivity.
Qed.

(** C3, as the code has it.  Let the first definition of [name] in the
    module have the body [body], and let [name] be neither a system function
    nor cached.  When [body] is [pre ++ Return value :: post] with no
    [return] among the statements [post], the resolution returns, and caches
    for the signature, the type inferred for [value] in the state reached
    after [pre] (VOID when [value] is missing or its inference gives
    nothing), whatever returns [pre] holds.  When [body] holds no [return]
    at all, it returns and caches VOID. *)
Theorem resolve_last_return fuel name args self fname params body :
  is_system_function name = false ->
  Functions_getitem name (functions self) = None ->
  find (ast.is_FunctionDef_named name) (module_body self)
  = Some (ast.FunctionDef fname params body) ->
  (forall pre value post vars1 rt1 self1 r self2 vars3 rt3 self3,
      body = (pre ++ ast.Return value :: post)%list ->
      no_return post = true ->
      for_each pre ([], Type_.VOID)
        (analysis_function_loop (get_type fuel) (analysis_assign_node fuel)) self
      = Ok (vars1, rt1) self1 ->
      get_type_of_return fuel value self1 = Ok r self2 ->
      for_each post (vars1, void_if_none r)
        (analysis_function_loop (get_type fuel) (analysis_assign_node fuel)) self2
      = Ok (vars3, rt3) self3 ->
      let f := mkFunction name args (void_if_none r)
                 (mkCodeGenerator (code self3) None (Some vars3)) in
      get_function_return_type (S (S fuel)) name args self
      = Ok (void_if_none r) (with_function f self3) /\
      Functions_getitem name (functions (with_function f self3)) = Some f) /\
  (forall vars rt self1,
      no_return body = true ->
      for_each body ([], Type_.VOID)
        (analysis_function_loop (get_type fuel) (analysis_assign_node fuel)) self
      = Ok (vars, rt) self1 ->
      let f := mkFunction name args Type_.VOID
                 (mkCodeGenerator (code self1) None (Some vars)) in
      get_function_return_type (S (S fuel)) name args self
      = Ok Type_.VOID (with_function f self1) /\
      Functions_getitem name (functions (with_function f self1)) = Some f).
Proof.
  intros Hsys Hf Hfind. split.
  - intros pre value post vars1 rt1 self1 r self2 vars3 rt3 self3
           -> Hpost Hpre Hval Hrest f.
    assert (rt3 = void_if_none r) as -> by (eapply for_each_no_return; eauto).
    split.
    + eapply resolve_first; [exact Hsys | exact Hf | exact Hfind |].
      rewrite analysis_function_S.
      eapply bind_intro.
      { rewrite for_each_app.
        eapply bind_intro; [exact Hpre|]. simpl.
        eapply bind_intro.
        - eapply bind_intro; [exact Hval | reflexivity].
        - exact Hrest. }
      reflexivity.
    + exact (table_getitem_append_same _ function_name f (functions self3)).
  - intros vars rt self1 Hnr Hrun f.
    assert (rt = Type_.VOID) as -> by (eapply for_each_no_return; eauto).
    split.
    + eapply resolve_first; [exact Hsys | exact Hf | exact Hfind |].
      rewrite analysis_function_S.
      eapply bind_intro; [exact Hrun | reflexivity].
    + exact (table_getitem_append_same _ function_name f (functions self1)).
Qed.

(** C10, as the code has it.  When [get_type] returns: on a binary or unary
    operation, a number, string or list literal, or a call, it returns a
    type; on a name it returns what the entry of the name in the analyzer's
    variable table records; on a node of any other class it returns [None].
    And on a node of any other class it does return [None], without an
    exception, as soon as the bound allows one call. *)
Theorem get_type_result_by_node fuel node self :
  (forall r self',
      get_type fuel node self = Ok r self' ->
      match node with
      | ast.BinOp _ _ _ | ast.UnaryOp _ _ | ast.Num _ | ast.Str _ | ast.List _
      | ast.Call _ _ => exists ty, r = Some ty
      | ast.Name id =>
          exists v,
            Variables_getitem id (variables self) = Some v /\ r = var_type v
      | ast.Tuple _ | ast.Attribute _ _ | ast.OtherExpr _ => r = None
      end) /\
  match node with
  | ast.Tuple _ | ast.Attribute _ _ | ast.OtherExpr _ =>
      get_type (S fuel) node self = Ok None self
  | _ => True
  end.
Proof.
  split; [| destruct node; exact I || reflexivity].
  intros r self' H. destruct fuel as [|fuel]; [discriminate|].
  destruct node;
    try (apply ret_Ok in H; destruct H as [-> _]; now eauto).
  - rewrite get_type_BinOp in H.
    bind_inv H. bind_inv H. bind_inv H.
    destruct a1.
    + apply ret_Ok in H. destruct H as [-> _]. eauto.
    + destruct (ast.is_Add op); [|discriminate].
      apply ret_Ok in H. destruct H as [-> _]. eauto.
  - discriminate.
  - rewrite get_type_Call in H.
    bind_inv H. bind_inv H. bind_inv H.
    apply ret_Ok in H. destruct H as [-> _]. eauto.
  - rewrite get_type_Name in H.
    apply attr_var_type_Ok in H. destruct H as (v & Hv & -> & _). eauto.
Qed.

End BodyFacts.

(** C3, as the spec has it, fails: in [def f(): return 1; return "a"] the
    first [return] is inferred to NUMBER, and [f] is resolved and cached as
    returning STRING. *)
Lemma first_return_not_the_cached_type :
  get_type_of_return (collaborators := sample_collaborators)
    1 (Some (ast.Num 1)) analyzer_two_returns
  = Ok (Some Type_.NUMBER) analyzer_two_returns /\
  get_function_return_type (collaborators := sample_collaborators)
    3 "f" [] analyzer_two_returns
  = Ok Type_.STRING analyzer_two_returns_cached /\
  option_map return_type (Functions_getitem "f" (functions analyzer_two_returns_cached))
  = Some Type_.STRING.
Proof. repeat split. Qed.

(** In [def f(): return 1; return "a"] the last [return] gives the cached
    type. *)
Lemma resolve_last_return_witness :
  is_system_function (Collaborators := sample_collaborators) "f" = false /\
  Functions_getitem "f" (functions analyzer_two_returns) = None /\
  get_function_return_type (collaborators := sample_collaborators)
    3 "f" [] analyzer_two_returns
  = Ok Type_.STRING analyzer_two_returns_cached.
Proof.
  split; [reflexivity | split; [reflexivity |]].
  refine (proj1 (proj1 (resolve_last_return 1 "f" [] analyzer_two_returns "f" []
                   [ast.Return (Some (ast.Num 1)); ast.Return (Some (ast.Str "a"))]
                   _ _ _)
                   [ast.Return (Some (ast.Num 1))] (Some (ast.Str "a")) []
                   [] Type_.NUMBER analyzer_two_returns
                   (Some Type_.STRING) analyzer_two_returns
                   [] Type_.STRING analyzer_two_returns
                   _ _ _ _ _)); reflexivity.
Defined.

(** C10, as the spec has it, fails: a dictionary display is an expression
    node on which [get_type] returns [None], neither a type nor an error. *)
Lemma get_type_falls_through :
  get_type (collaborators := sample_collaborators)
    1 (ast.OtherExpr "Dict") empty_analyzer = Ok None empty_analyzer.
Proof. reflexivity. Qed.

(** The binary operation [1 + "a"] returns a type. *)
Lemma get_type_result_by_node_witness :
  get_type (collaborators := sample_collaborators) 2
    (ast.BinOp (ast.Num 1) ast.Add (ast.Str "a")) empty_analyzer
  = Ok (Some Type_.STRING) empty_analyzer /\
  exists ty, Some Type_.STRING = Some ty.
Proof.
  split; [reflexivity |].
  apply (proj1 (get_type_result_by_node (collaborators := sample_collaborators)
                  2 (ast.BinOp (ast.Num 1) ast.Add (ast.Str "a")) empty_analyzer)
           (Some Type_.STRING) empty_analyzer).
  reflexivity.
Defined.

(** C5.  The analysis of a function body reads names in the module's
    variable table, not in the table of the body.  In the first module the
    body of [f] assigns a string to [x] and returns [x], and [f] is cached
    as returning NUMBER, the type of the module's [x].  In the second the
    body returns its parameter, which the call gives a NUMBER, and the
    analysis ends in the exception of a lookup that found nothing. *)
Theorem nested_pass_reads_module_table :
  analysis (collaborators := sample_collaborators) 5
    (CodeAnalyzer_init EmptyString module_local_x)
  = Ok (mkCodeGenerator EmptyString (Some (functions analyzer_local_x_done))
          (Some (variables analyzer_local_x_done)))
       analyzer_local_x_done /\
  analysis (collaborators := sample_collaborators) 5
    (CodeAnalyzer_init EmptyString module_identity)
  = Raise (AttributeError "var_type").
Proof. split; reflexivity. Qed.

(** ** Runs of whole modules *)

(** The second call of [f], with a STRING where the first had a NUMBER, ends
    the analysis. *)
Example analysis_f_called_twice :
  analysis (collaborators := sample_collaborators) 5
    (CodeAnalyzer_init EmptyString module_f_called_twice)
  = Raise (ParamTypeMismatchError "Function '%s' parameter type is not match" "f").
Proof. reflexivity. Qed.

(** A call of a function that the module does not define is a STRING. *)
Example get_type_call_undefined :
  get_type (collaborators := sample_collaborators) 2
    (ast.Call (ast.Name "g") [ast.Num 1]) analyzer_f_fresh
  = Ok (Some Type_.STRING) analyzer_f_fresh.
Proof. reflexivity. Qed.

(** After [x = {}] the table records [x] without a type, and a reference
    to [x] returns [None]. *)
Example get_type_name_without_type :
  bind (analysis (collaborators := sample_collaborators) 3)
       (fun _ => get_type (collaborators := sample_collaborators) 1 (ast.Name "x"))
       (CodeAnalyzer_init EmptyString module_x_dict)
  = Ok None (mkCodeAnalyzer EmptyString module_x_dict [] [mkVariable "x" None]).
Proof. reflexivity. Qed.

(** A later assignment to a name takes the place of the earlier one. *)
Example reassignment_wins :
  Variables_getitem "x"
    (Variables_append (mkVariable "x" (Some Type_.STRING))
       (Variables_append (mkVariable "y" (Some Type_.LIST))
          (Variables_append (mkVariable "x" (Some Type_.NUMBER)) [])))
  = Some (mkVariable "x" (Some Type_.STRING)).
Proof. reflexivity. Qed.

(** ** Assignments *)
Section AssignFacts.
Context {collaborators : Collaborators}.

(** What a run of [analysis_assign_node] that returns has done: the
    statement is an assignment to one target, a name; its value was inferred
    to [ty]; and the table returned is the table given with the entry of
    that name set to [ty]. *)
Lemma analysis_assign_node_Ok fuel vars node self vars' self' :
  analysis_assign_node fuel vars node self = Ok vars' self' ->
  exists fuel0 id value ty,
    fuel = S fuel0 /\
    node = ast.Assign [ast.Name id] value /\
    get_type fuel0 value self = Ok ty self' /\
    vars' = Variables_append (mkVariable id ty) vars.
Proof.
  intros H. destruct fuel as [|fuel0]; [discriminate|].
  destruct node; try discriminate. simpl in H.
  destruct targets as [|target [|t2 rest]]; simpl in H; try discriminate.
  bind_inv H. bind_inv H.
  apply attr_id_Ok in Ha. destruct Ha as [-> ->].
  apply ret_Ok in H. destruct H as [-> ->].
  exists fuel0, a, value, a0. auto.
Qed.

(** X1.  An assignment with more than one target ([a = b = 1]) raises
    SyntaxNotSupportError before anything is inferred, in a function body
    and at the top level of the module alike. *)
Theorem assign_several_targets fuel vars targets value self :
  1 < List.length targets ->
  analysis_assign_node (S fuel) vars (ast.Assign targets value) self
  = Raise (SyntaxNotSupportError "Tuple assignment is not support yet.") /\
  analysis_loop (S fuel) tt (ast.Assign targets value) self
  = Raise (SyntaxNotSupportError "Tuple assignment is not support yet.").
Proof.
  intros Hlen. apply Nat.ltb_lt in Hlen.
  assert (H : analysis_assign_node (S fuel) vars (ast.Assign targets value) self
              = Raise (SyntaxNotSupportError "Tuple assignment is not support yet.")).
  { simpl. rewrite Hlen. reflexivity. }
  split; [exact H|].
  simpl. unfold bind, get_self. rewrite Hlen. reflexivity.
Qed.

(** X2.  An assignment whose one target is no name, as the tuple of
    [a, b = 1, 2] or an attribute or subscript, raises AttributeError when
    the identifier of the target is read; the value is not inferred. *)
Theorem assign_target_not_a_name fuel vars target value self :
  (forall id, target <> ast.Name id) ->
  analysis_assign_node (S fuel) vars (ast.Assign [target] value) self
  = Raise (AttributeError "id").
Proof.
  intros Hname. rewrite analysis_assign_node_S. unfold bind.
  destruct target; try reflexivity.
  now destruct (Hname id).
Qed.

(** X3.  At the top level, an assignment [id = value] whose value is
    inferred to [ty] sets the entry of [id] in the module's table to [ty]:
    a reference to [id] is then inferred to [ty], whatever the table held
    for [id] before, and the entry of every other name is as it was. *)
Theorem assign_then_reference fuel id value self ty self1 :
  get_type fuel value self = Ok ty self1 ->
  let self2 :=
    with_variables (Variables_append (mkVariable id ty) (variables self)) self1 in
  analysis_loop (S fuel) tt (ast.Assign [ast.Name id] value) self = Ok tt self2 /\
  (forall fuel', get_type (S fuel') (ast.Name id) self2 = Ok ty self2) /\
  (forall other,
      other <> id ->
      Variables_getitem other (variables self2)
      = Variables_getitem other (variables self)).
Proof.
  intros Hval self2. repeat apply conj.
  - simpl. unfold bind, get_self. simpl. rewrite Hval. reflexivity.
  - intros fuel'. rewrite get_type_Name. unfold self2; simpl.
    unfold Variables_getitem, Variables_append.
    rewrite (table_getitem_append_same _ name (mkVariable id ty)).
    reflexivity.
  - intros other Hother. unfold self2; simpl.
    unfold Variables_getitem, Variables_append.
    apply table_getitem_append_other. simpl. congruence.
Qed.

End AssignFacts.

(** [a = b = 1] is refused. *)
Lemma assign_several_targets_witness :
  1 < List.length [ast.Name "a"; ast.Name "b"] /\
  analysis_loop (collaborators := sample_collaborators) 1 tt
    (ast.Assign [ast.Name "a"; ast.Name "b"] (ast.Num 1)) empty_analyzer
  = Raise (SyntaxNotSupportError "Tuple assignment is not support yet.").
Proof.
  split; [simpl; lia |].
  refine (proj2 (assign_several_targets (collaborators := sample_collaborators)
                   0 [] [ast.Name "a"; ast.Name "b"]
                   (ast.Num 1) empty_analyzer _)).
  simpl; lia.
Defined.

(** [a, b = 1, 2] ends in AttributeError. *)
Lemma assign_target_not_a_name_witness :
  analysis_assign_node (collaborators := sample_collaborators) 1 []
    (ast.Assign [ast.Tuple [ast.Name "a"; ast.Name "b"]]
       (ast.Tuple [ast.Num 1; ast.Num 2])) empty_analyzer
  = Raise (AttributeError "id").
Proof.
  apply (assign_target_not_a_name 0 [] (ast.Tuple [ast.Name "a"; ast.Name "b"])
           (ast.Tuple [ast.Num 1; ast.Num 2]) empty_analyzer).
  intros id. discriminate.
Defined.

(** After [x = "a"], a reference to [x] is a STRING. *)
Lemma assign_then_reference_witness :
  get_type (collaborators := sample_collaborators) 1 (ast.Str "a") empty_analyzer
  = Ok (Some Type_.STRING) empty_analyzer /\
  get_type (collaborators := sample_collaborators) 1 (ast.Name "x")
    (with_variables [mkVariable "x" (Some Type_.STRING)] empty_analyzer)
  = Ok (Some Type_.STRING)
       (with_variables [mkVariable "x" (Some Type_.STRING)] empty_analyzer).
Proof.
  split; [reflexivity |].
  refine (proj1 (proj2 (assign_then_reference
                          (collaborators := sample_collaborators)
                          1 "x" (ast.Str "a") empty_analyzer
                          (Some Type_.STRING) empty_analyzer _)) 0).
  reflexivity.
Defined.

(** ** Calls and the resolver *)
Section ResolverFacts.
Context {collaborators : Collaborators}.

(** X4.  A run of [get_type] that returns leaves the source text, the module
    and the module's variable table as they were, and every entry of the
    function table stays the entry of its name: inference changes the
    analyzer only by adding functions to the cache. *)
Theorem get_type_keeps_analyzer fuel node self ty self' :
  get_type fuel node self = Ok ty self' ->
  code self' = code self /\
  module_body self' = module_body self /\
  variables self' = variables self /\
  (forall name f,
      Functions_getitem name (functions self) = Some f ->
      Functions_getitem name (functions self') = Some f).
Proof.
  intros H. apply (proj1 (methods_nested_state fuel)) in H.
  destruct H as [(Hc & Hb & Hf) Hv]. auto.
Qed.

(** X5.  The name of a system function is resolved to the type the registry
    gives, whatever the argument types, whatever the cache holds for the
    name, and whatever the module defines under that name; nothing is
    analysed or cached. *)
Theorem resolve_system_function fuel name args self :
  is_system_function name = true ->
  get_function_return_type (S fuel) name args self
  = Ok (system_function_return_type name) self /\
  forall call_args args_type self1,
    mapM (get_type (S fuel)) call_args self = Ok args_type self1 ->
    get_type (S (S fuel)) (ast.Call (ast.Name name) call_args) self
    = Ok (Some (system_function_return_type name)) self1.
Proof.
  intros Hsys. split.
  - rewrite get_function_return_type_S, Hsys. reflexivity.
  - intros call_args args_type self1 Hargs.
    rewrite get_type_Call.
    eapply bind_intro; [exact Hargs|].
    eapply bind_intro; [reflexivity|].
    eapply bind_intro; [|reflexivity].
    rewrite get_function_return_type_S, Hsys. reflexivity.
Qed.

(** X6.  A call whose callee is no plain name, as the method call [a.b()],
    raises AttributeError when the identifier of the callee is read, once
    its arguments have been inferred. *)
Theorem call_of_non_name fuel func args self args_type self1 :
  (forall id, func <> ast.Name id) ->
  mapM (get_type fuel) args self = Ok args_type self1 ->
  get_type (S fuel) (ast.Call func args) self = Raise (AttributeError "id").
Proof.
  intros Hname Hargs. rewrite get_type_Call.
  eapply bind_intro; [exact Hargs|].
  unfold bind. destruct func; try reflexivity.
  now destruct (Hname id).
Qed.

(** X7.  The operand types of a binary operation are read left first, and
    the right one only when the left is NUMBER.  So a left operand inferred
    to no type raises AttributeError under every operator; and under a left
    operand of a type other than NUMBER the right operand may be inferred to
    anything, no type included: [Add] gives STRING and every other operator
    raises CompileError. *)
Theorem binop_operand_without_type fuel node_left op node_right self tl self1 tr self2 :
  get_type fuel node_left self = Ok tl self1 ->
  get_type fuel node_right self1 = Ok tr self2 ->
  (tl = None ->
   get_type (S fuel) (ast.BinOp node_left op node_right) self
   = Raise (AttributeError "is_number")) /\
  (forall t, tl = Some t -> t <> Type_.NUMBER ->
   get_type (S fuel) (ast.BinOp node_left op node_right) self
   = if ast.is_Add op then Ok (Some Type_.STRING) self2
     else Raise (CompileError
                   ("Can not '" ++ ast.operator_class_name op
                      ++ "' operator with string."))) /\
  (tl = Some Type_.NUMBER -> tr = None ->
   get_type (S fuel) (ast.BinOp node_left op node_right) self
   = Raise (AttributeError "is_number")).
Proof.
  intros Hl Hr. rewrite get_type_BinOp. unfold bind. rewrite Hl, Hr.
  repeat apply conj.
  - intros ->. reflexivity.
  - intros t -> Ht. unfold both_is_number, bind. simpl.
    destruct t; try congruence; unfold ret; destruct (ast.is_Add op); reflexivity.
  - intros -> ->. reflexivity.
Qed.

(** The cache entry met after a resolution that returned holds the
    signature resolved. *)
Lemma resolved_entry fuel name args self ty self1 f :
  get_function_return_type fuel name args self = Ok ty self1 ->
  is_system_function name = false ->
  Functions_getitem name (functions self1) = Some f ->
  args_type f = args /\ return_type f = ty.
Proof.
  intros H Hsys Hf1. destruct fuel as [|fuel]; [discriminate|].
  rewrite get_function_return_type_S, Hsys in H.
  destruct (Functions_getitem name (functions self)) as [f0|] eqn:Hf.
  - destruct (is_args_type_match f0 args) eqn:Hm; [|discriminate].
    injection H as <- <-. rewrite Hf in Hf1. injection Hf1 as <-.
    split; [now apply args_type_eqb_eq | reflexivity].
  - destruct (find _ (module_body self)) as [node|].
    + bind_inv H. destruct a as [g rt]. bind_inv H.
      apply ret_Ok in H. destruct H as [-> ->].
      unfold functions_append in Ha0. injection Ha0 as _ <-.
      change (Functions_getitem name
                (Functions_append (mkFunction name args rt g) (functions s))
              = Some f) in Hf1.
      assert (E : Functions_getitem name
                    (Functions_append (mkFunction name args rt g) (functions s))
                  = Some (mkFunction name args rt g))
        by exact (table_getitem_append_same _ function_name
                    (mkFunction name args rt g) (functions s)).
      rewrite E in Hf1. injection Hf1 as <-. split; reflexivity.
    + injection H as <- <-. congruence.
Qed.

(** X8.  A function name has one signature.  Once a resolution of [name]
    for the argument types [args] has returned and the name is cached, a
    resolution for any other argument types raises ParamTypeMismatchError;
    the body is not analysed for them. *)
Theorem second_signature_rejected fuel name args self ty self1 f args' :
  get_function_return_type fuel name args self = Ok ty self1 ->
  is_system_function name = false ->
  Functions_getitem name (functions self1) = Some f ->
  args' <> args ->
  forall fuel',
    get_function_return_type (S fuel') name args' self1
    = Raise (ParamTypeMismatchError
               "Function '%s' parameter type is not match" name).
Proof.
  intros H Hsys Hf Hne fuel'.
  destruct (resolved_entry _ _ _ _ _ _ _ H Hsys Hf) as [Hargs _].
  rewrite get_function_return_type_S, Hsys, Hf.
  destruct (is_args_type_match f args') eqn:Hm; [|reflexivity].
  apply args_type_eqb_eq in Hm. congruence.
Qed.

End ResolverFacts.

(** A call [f()] in [def f(): return 1] changes the cache only. *)
Lemma get_type_keeps_analyzer_witness :
  get_type (collaborators := sample_collaborators) 4
    (ast.Call (ast.Name "f") []) analyzer_f_fresh
  = Ok (Some Type_.NUMBER) analyzer_f_cached /\
  variables analyzer_f_cached = variables analyzer_f_fresh.
Proof.
  split; [reflexivity |].
  refine (proj1 (proj2 (proj2 (get_type_keeps_analyzer
                                 (collaborators := sample_collaborators)
                                 4 (ast.Call (ast.Name "f") []) analyzer_f_fresh
                                 (Some Type_.NUMBER) analyzer_f_cached _)))).
  reflexivity.
Defined.

(** [print] with a STRING argument is resolved by the registry. *)
Lemma resolve_system_function_witness :
  is_system_function (Collaborators := sample_collaborators) "print" = true /\
  get_function_return_type (collaborators := sample_collaborators)
    1 "print" [Some Type_.STRING] empty_analyzer = Ok Type_.VOID empty_analyzer.
Proof.
  split; [reflexivity |].
  refine (proj1 (resolve_system_function (collaborators := sample_collaborators)
                   0 "print" [Some Type_.STRING] empty_analyzer _)).
  reflexivity.
Defined.

(** The method call [a.b()] ends in AttributeError. *)
Lemma call_of_non_name_witness :
  get_type (collaborators := sample_collaborators) 1
    (ast.Call (ast.Attribute (ast.Name "a") "b") []) empty_analyzer
  = Raise (AttributeError "id").
Proof.
  apply (call_of_non_name 0 (ast.Attribute (ast.Name "a") "b") []
           empty_analyzer [] empty_analyzer).
  - intros id. discriminate.
  - reflexivity.
Defined.

(** A string plus a dictionary display is a STRING. *)
Lemma binop_operand_without_type_witness :
  get_type (collaborators := sample_collaborators) 1
    (ast.OtherExpr "Dict") empty_analyzer = Ok None empty_analyzer /\
  get_type (collaborators := sample_collaborators) 2
    (ast.BinOp (ast.Str "a") ast.Add (ast.OtherExpr "Dict")) empty_analyzer
  = Ok (Some Type_.STRING) empty_analyzer.
Proof.
  split; [reflexivity |].
  refine (proj1 (proj2 (binop_operand_without_type
                          (collaborators := sample_collaborators)
                          1 (ast.Str "a") ast.Add (ast.OtherExpr "Dict")
                          empty_analyzer (Some Type_.STRING) empty_analyzer
                          None empty_analyzer _ _))
            Type_.STRING _ _); reflexivity || discriminate.
Defined.

(** In [def f(): return 1], after [f()] a call [f(1)] is refused. *)
Lemma second_signature_rejected_witness :
  get_function_return_type (collaborators := sample_collaborators)
    3 "f" [] analyzer_f_fresh = Ok Type_.NUMBER analyzer_f_cached /\
  get_function_return_type (collaborators := sample_collaborators)
    1 "f" [Some Type_.NUMBER] analyzer_f_cached
  = Raise (ParamTypeMismatchError "Function '%s' parameter type is not match" "f").
Proof.
  split; [reflexivity |].
  refine (second_signature_rejected (collaborators := sample_collaborators)
            3 "f" [] analyzer_f_fresh Type_.NUMBER analyzer_f_cached
            (mkFunction "f" [] Type_.NUMBER
               (mkCodeGenerator "def f(): return 1" None (Some [])))
            [Some Type_.NUMBER] _ _ _ _ 0); reflexivity || discriminate.
Defined.

(** ** What the cache gains *)
Section CacheFacts.
Context {collaborators : Collaborators}.

Lemma grows_refl self : grows self self.
Proof. split; [apply nested_state_refl |]. intros name f H. now left. Qed.

Lemma grows_trans s1 s2 s3 : grows s1 s2 -> grows s2 s3 -> grows s1 s3.
Proof.
  intros [N1 G1] [N2 G2]. split; [eapply nested_state_trans; eauto|].
  intros name f H. destruct (G2 name f H) as [H2 | [Hsys Hdef]].
  - apply G1. exact H2.
  - right. destruct N1 as [(_ & Hb & _) _]. rewrite <- Hb. auto.
Qed.

Lemma analysis_function_loop_grows get_type_n assign_n :
  (forall node self ty self',
      get_type_n node self = Ok ty self' -> grows self self') ->
  (forall vars node self vars' self',
      assign_n vars node self = Ok vars' self' -> grows self self') ->
  forall locals node self locals' self',
    analysis_function_loop get_type_n assign_n locals node self = Ok locals' self' ->
    grows self self'.
Proof.
  intros Ht Hn [vars rt] node self locals' self' H.
  destruct node; simpl in H;
    try (apply ret_Ok in H; destruct H as [_ ->]; apply grows_refl).
  - bind_inv H. apply ret_Ok in H. destruct H as [_ ->]. eauto.
  - bind_inv H. apply ret_Ok in H. destruct H as [_ ->].
    destruct value as [value|].
    + eauto.
    + apply ret_Ok in Ha. destruct Ha as [_ ->]. apply grows_refl.
Qed.

Lemma methods_grow fuel :
  (forall node self ty self',
      get_type fuel node self = Ok ty self' -> grows self self') /\
  (forall name args self ty self',
      get_function_return_type fuel name args self = Ok ty self' ->
      grows self self') /\
  (forall node args self r self',
      analysis_function fuel node args self = Ok r self' -> grows self self') /\
  (forall vars node self vars' self',
      analysis_assign_node fuel vars node self = Ok vars' self' ->
      grows self self').
Proof.
  induction fuel as [|fuel (IHt & IHf & IHa & IHn)].
  { repeat split; intros; discriminate. }
  repeat apply conj.
  - intros node self ty self' H. destruct node;
      try (apply ret_Ok in H; destruct H as [_ ->]; apply grows_refl).
    + rewrite get_type_BinOp in H.
      bind_inv H. bind_inv H. bind_inv H.
      apply both_is_number_Ok in Ha1. subst.
      assert (self' = s0) as ->.
      { destruct a1; [now apply ret_Ok in H|].
        destruct (ast.is_Add op); [now apply ret_Ok in H | discriminate]. }
      eapply grows_trans; eauto.
    + discriminate.
    + rewrite get_type_Call in H.
      bind_inv H. bind_inv H. bind_inv H.
      apply ret_Ok in H. destruct H as [_ ->].
      apply attr_id_Ok in Ha0. destruct Ha0 as [_ ->].
      eapply grows_trans; [|eauto].
      eapply mapM_rel; eauto using grows_refl, grows_trans.
    + rewrite get_type_Name in H.
      apply attr_var_type_Ok in H. destruct H as (v & _ & _ & ->).
      apply grows_refl.
  - intros name args self ty self' H.
    pose proof (proj1 (proj2 (methods_nested_state (S fuel))) _ _ _ _ _ H) as Hnested.
    rewrite get_function_return_type_S in H.
    destruct (is_system_function name) eqn:Hsys.
    { injection H as _ <-. apply grows_refl. }
    destruct (Functions_getitem name (functions self)) as [f|] eqn:Hf.
    { destruct (is_args_type_match f args); [|discriminate].
      injection H as _ <-. apply grows_refl. }
    destruct (find _ (module_body self)) as [node|] eqn:Hfind.
    2:{ injection H as _ <-. apply grows_refl. }
    bind_inv H. destruct a as [g rt]. bind_inv H.
    apply ret_Ok in H. destruct H as [_ ->].
    destruct (IHa _ _ _ _ _ Ha) as [_ Hg].
    injection Ha0 as _ <-.
    split; [exact Hnested|].
    intros n f Hn'. simpl in Hn'.
    destruct (String.eqb_spec name n) as [<- | Hne].
    + right. split; [exact Hsys | rewrite Hfind; discriminate].
    + apply Hg. rewrite <- Hn'. symmetry.
      apply (table_getitem_append_other _ function_name
               (mkFunction name args rt g) n (functions s)).
      exact Hne.
  - intros node args self r self' H.
    destruct node; try discriminate.
    rewrite analysis_function_S in H.
    bind_inv H. destruct a as [vars rt]. bind_inv H.
    apply get_self_Ok in Ha0. destruct Ha0 as [_ ->].
    apply ret_Ok in H. destruct H as [_ ->].
    eapply for_each_rel; [| | | exact Ha];
      eauto using grows_refl, grows_trans.
    intros acc x s1 acc' s1'. apply analysis_function_loop_grows; auto.
  - intros vars node self vars' self' H.
    apply analysis_assign_node_Ok in H.
    destruct H as (fuel0 & id & value & ty & [= <-] & _ & H & _). eauto.
Qed.

(** X9.  The function table gains entries only for functions that the
    module defines at its top level and that are no system functions: an
    entry met after a run of [get_type] either was there before the run,
    unchanged, or bears such a name.  So a call of an unknown name, which is
    resolved to STRING, leaves no entry. *)
Theorem cache_gains_defined_functions fuel node self ty self' name f :
  get_type fuel node self = Ok ty self' ->
  Functions_getitem name (functions self') = Some f ->
  Functions_getitem name (functions self) = Some f \/
  (is_system_function name = false /\
   exists def_name params body,
     find (ast.is_FunctionDef_named name) (module_body self)
     = Some (ast.FunctionDef def_name params body)).
Proof.
  intros H Hf. destruct (proj1 (methods_grow fuel) _ _ _ _ H) as [_ Hg].
  destruct (Hg name f Hf) as [Hold | [Hsys Hdef]]; [now left | right].
  split; [exact Hsys|].
  destruct (find _ (module_body self)) as [node'|] eqn:Hfind; [|congruence].
  pose proof (find_some _ _ Hfind) as [_ Hnamed].
  destruct node'; try discriminate. eauto.
Qed.

End CacheFacts.

(** After [f()] in [def f(): return 1] the entry of [f] is that of a
    function of the module. *)
Lemma cache_gains_defined_functions_witness :
  get_type (collaborators := sample_collaborators) 4
    (ast.Call (ast.Name "f") []) analyzer_f_fresh
  = Ok (Some Type_.NUMBER) analyzer_f_cached /\
  (Functions_getitem "f" (functions analyzer_f_fresh)
   = Some (mkFunction "f" [] Type_.NUMBER
             (mkCodeGenerator "def f(): return 1" None (Some []))) \/
   (is_system_function (Collaborators := sample_collaborators) "f" = false /\
    exists def_name params body,
      find (ast.is_FunctionDef_named "f") (module_body analyzer_f_fresh)
      = Some (ast.FunctionDef def_name params body))).
Proof.
  split; [reflexivity |].
  refine (cache_gains_defined_functions (collaborators := sample_collaborators)
            4 (ast.Call (ast.Name "f") []) analyzer_f_fresh
            (Some Type_.NUMBER) analyzer_f_cached "f" _ _ _); reflexivity.
Defined.

(** ** Functions that call themselves *)
Section RecursionFacts.
Context {collaborators : Collaborators}.

(** Literal arguments are inferred without a change of the analyzer, when
    the bound lets them be inferred at all. *)
Lemma mapM_literals fuel args self :
  forallb is_literal args = true ->
  mapM (get_type fuel) args self = OutOfFuel \/
  exists args_type, mapM (get_type fuel) args self = Ok args_type self.
Proof.
  induction args as [|arg args IH]; simpl; intros Hlit.
  - right. now exists [].
  - apply andb_true_iff in Hlit. destruct Hlit as [Harg Hlit].
    destruct fuel as [|fuel]; [now left|].
    assert (Hty : exists ty, get_type (S fuel) arg self = Ok ty self)
      by (destruct arg; try discriminate; eexists; reflexivity).
    destruct Hty as [ty Hty].
    destruct (IH Hlit) as [E | [tys E]]; [left | right; exists (ty :: tys)];
      unfold bind; rewrite Hty, E; reflexivity.
Qed.

(** X10.  A function whose body begins with the return of a call of
    itself on literal arguments cannot be resolved: the entry of the
    function is written to the cache only after its body is analysed, so
    the analysis of the body meets the name uncached and starts again.
    Under every bound on the depth of calls the run is cut off. *)
Theorem direct_recursion_never_ends fuel name def_name params call_args rest args self :
  is_system_function name = false ->
  Functions_getitem name (functions self) = None ->
  find (ast.is_FunctionDef_named name) (module_body self)
  = Some (ast.FunctionDef def_name params
            (ast.Return (Some (ast.Call (ast.Name name) call_args)) :: rest)) ->
  forallb is_literal call_args = true ->
  get_function_return_type fuel name args self = OutOfFuel.
Proof.
  intros Hsys Hf Hfind Hlit. revert args.
  induction fuel as [fuel IH] using lt_wf_ind. intros args.
  destruct fuel as [|fuel]; [reflexivity|].
  rewrite get_function_return_type_S, Hsys, Hf, Hfind.
  unfold bind at 1.
  destruct fuel as [|fuel]; [reflexivity|].
  rewrite analysis_function_S. unfold bind at 1. simpl for_each.
  unfold bind at 1. unfold analysis_function_loop at 1. unfold bind at 1.
  destruct fuel as [|fuel]; [reflexivity|].
  rewrite get_type_Call. unfold bind at 1.
  destruct (mapM_literals fuel call_args self Hlit) as [-> | [tys ->]];
    [reflexivity|].
  simpl attr_id. unfold bind at 1, ret at 1. unfold bind at 1.
  rewrite (IH fuel) by lia. reflexivity.
Qed.

End RecursionFacts.

(** [def f(a): return f(1)]: the resolution of [f] is cut off. *)
Lemma direct_recursion_never_ends_witness :
  is_system_function (Collaborators := sample_collaborators) "f" = false /\
  get_function_return_type (collaborators := sample_collaborators)
    40 "f" [Some Type_.NUMBER] analyzer_recursive_f = OutOfFuel.
Proof.
  split; [reflexivity |].
  apply (direct_recursion_never_ends 40 "f" "f" ["a"] [ast.Num 1] []
           [Some Type_.NUMBER] analyzer_recursive_f); reflexivity.
Defined.

(** ** The driver *)
Section DriverFacts.
Context {collaborators : Collaborators}.

Lemma for_each_passed_over fuel body self :
  forallb passed_over body = true ->
  for_each body tt (analysis_loop fuel) self = Ok tt self.
Proof.
  revert self. induction body as [|node body IH]; simpl; intros self H;
    [reflexivity|].
  apply andb_true_iff in H. destruct H as [Hnode Hbody].
  eapply bind_intro; [|apply IH; exact Hbody].
  destruct node; try discriminate; try reflexivity.
  simpl in *. destruct (ast.is_Call value); [discriminate | reflexivity].
Qed.

(** X11.  Function definitions are analysed only when called.  A module
    whose top-level statements are passed over by the driver (function
    definitions, expression statements that hold no call, and any statement
    class the driver does not know) is analysed without a call of any other
    method, under any bound, and the analyzer is left as it was: a
    definition that would fail when called, as [def f(a): return a], is
    accepted as long as it is not called. *)
Theorem analysis_passes_over fuel self :
  forallb passed_over (module_body self) = true ->
  analysis fuel self
  = Ok (mkCodeGenerator (code self) (Some (functions self)) (Some (variables self)))
       self.
Proof.
  intros H. unfold analysis.
  eapply bind_intro; [reflexivity|].
  eapply bind_intro; [apply for_each_passed_over; exact H|].
  reflexivity.
Qed.

(** X12.  When [analysis] returns, the generator it hands over holds the
    source text and the two tables of the analyzer as the run left them;
    the run has not changed the source text or the module, and every
    function cached before the run is cached unchanged after it. *)
Theorem analysis_result fuel self g self' :
  analysis fuel self = Ok g self' ->
  g = mkCodeGenerator (code self) (Some (functions self')) (Some (variables self')) /\
  code self' = code self /\
  module_body self' = module_body self /\
  (forall name f,
      Functions_getitem name (functions self) = Some f ->
      Functions_getitem name (functions self') = Some f).
Proof.
  intros H. unfold analysis in H.
  bind_inv H. apply get_self_Ok in Ha. destruct Ha as [-> ->].
  bind_inv H. bind_inv H.
  assert (Hl : later_state self s).
  { eapply for_each_rel; [| | | exact Ha];
      eauto using later_state_refl, later_state_trans, analysis_loop_later. }
  apply get_self_Ok in Ha0. destruct Ha0 as [-> ->].
  apply ret_Ok in H. destruct H as [-> ->].
  destruct Hl as (Hc & Hb & Hf). rewrite Hc. auto.
Qed.

(** X13.  The module's variable table never loses a name: a name that has
    an entry before a run of the driver's loop over any statements has one
    after it. *)
Theorem analysis_keeps_names_bound fuel stmts self u self' id :
  for_each stmts tt (analysis_loop fuel) self = Ok u self' ->
  Variables_getitem id (variables self) <> None ->
  Variables_getitem id (variables self') <> None.
Proof.
  intros H. revert id.
  eapply (for_each_rel
            (fun s s' => forall id,
                 Variables_getitem id (variables s) <> None ->
                 Variables_getitem id (variables s') <> None));
    [| | | exact H]; clear.
  - auto.
  - auto.
  - intros acc node s acc' s' H id Hid.
    destruct node; simpl in H;
      try (apply ret_Ok in H; destruct H as [_ ->]; exact Hid).
    + bind_inv H. apply get_self_Ok in Ha. destruct Ha as [-> ->].
      bind_inv H. apply analysis_assign_node_Ok in Ha.
      destruct Ha as (fuel0 & id0 & value0 & ty & _ & _ & _ & ->).
      unfold set_variables in H. injection H as _ <-. simpl.
      unfold Variables_getitem, Variables_append in *.
      destruct (String.eqb_spec id0 id) as [<- | Hne].
      * rewrite (table_getitem_append_same _ name (mkVariable id0 ty)).
        discriminate.
      * rewrite table_getitem_append_other by exact Hne. exact Hid.
    + destruct (ast.is_Call value).
      * bind_inv H. apply ret_Ok in H. destruct H as [_ ->].
        apply (proj1 (methods_nested_state fuel)) in Ha.
        destruct Ha as [_ Hv]. rewrite Hv. exact Hid.
      * apply ret_Ok in H. destruct H as [_ ->]. exact Hid.
    + destruct (analyze_cmd module names); [discriminate|].
      apply ret_Ok in H. destruct H as [_ ->]. exact Hid.
Qed.

End DriverFacts.

(** [def f(a): return a] alone is analysed without a failure. *)
Lemma analysis_passes_over_witness :
  forallb passed_over (module_body analyzer_uncalled_f) = true /\
  analysis (collaborators := sample_collaborators) 0 analyzer_uncalled_f
  = Ok (mkCodeGenerator EmptyString (Some []) (Some [])) analyzer_uncalled_f.
Proof.
  split; [reflexivity |].
  apply (analysis_passes_over 0 analyzer_uncalled_f). reflexivity.
Defined.

(** The generator of the module [x = 1; def f(): ...; f()] holds the final
    tables. *)
Lemma analysis_result_witness :
  analysis (collaborators := sample_collaborators) 5
    (CodeAnalyzer_init EmptyString module_local_x)
  = Ok (mkCodeGenerator EmptyString (Some (functions analyzer_local_x_done))
          (Some (variables analyzer_local_x_done)))
       analyzer_local_x_done /\
  module_body analyzer_local_x_done = module_local_x.
Proof.
  split; [reflexivity |].
  refine (proj1 (proj2 (proj2 (analysis_result
                                 (collaborators := sample_collaborators) 5
                                 (CodeAnalyzer_init EmptyString module_local_x)
                                 _ analyzer_local_x_done _)))).
  reflexivity.
Defined.

(** After [x = 1], the call [f()] of the same module leaves [x] bound. *)
Lemma analysis_keeps_names_bound_witness :
  Variables_getitem "x" (variables (with_variables [mkVariable "x" (Some Type_.NUMBER)]
                                      analyzer_f_fresh)) <> None /\
  Variables_getitem "x" (variables (with_variables [mkVariable "x" (Some Type_.NUMBER)]
                                      analyzer_f_cached)) <> None.
Proof.
  split; [discriminate |].
  refine (analysis_keeps_names_bound (collaborators := sample_collaborators)
            4 [ast.Expr (ast.Call (ast.Name "f") [])]
            (with_variables [mkVariable "x" (Some Type_.NUMBER)] analyzer_f_fresh)
            tt _ "x" _ _); [reflexivity | discriminate].
Defined.

(** ** The table of a function body *)

Lemma In_table_append {entry : Type} (key : entry -> string) e v tbl :
  In v (table_append key e tbl) -> v = e \/ In v tbl.
Proof.
  induction tbl as [|x rest IH]; simpl.
  - intros [<- | []]. now left.
  - destruct (String.eqb (key x) (key e)); simpl.
    + intros [<- | H]; auto.
    + intros [<- | H]; auto. destruct (IH H); auto.
Qed.

Section LocalTableFacts.
Context {collaborators : Collaborators}.

Lemma for_each_assigned_in fuel body xs :
  (forall x, In x xs -> In x body) ->
  forall vars rt self vars' rt' self',
    assigned_in body vars ->
    for_each xs (vars, rt)
      (analysis_function_loop (get_type fuel) (analysis_assign_node fuel)) self
    = Ok (vars', rt') self' ->
    assigned_in body vars'.
Proof.
  induction xs as [|x xs IH]; simpl; intros Hsub vars rt self vars' rt' self' Hvars H.
  - apply ret_Ok in H. destruct H as [H _]. injection H as -> _. exact Hvars.
  - bind_inv H. destruct a as [vars1 rt1].
    eapply IH; [auto | | exact H].
    destruct x; simpl in Ha;
      try (apply ret_Ok in Ha; destruct Ha as [Ha _]; injection Ha as -> _;
           exact Hvars).
    + bind_inv Ha. apply ret_Ok in Ha. destruct Ha as [Ha _].
      injection Ha as -> _.
      apply analysis_assign_node_Ok in Ha0.
      destruct Ha0 as (fuel0 & id & value0 & ty & _ & Hnode & _ & ->).
      intros v Hv. apply In_table_append in Hv. destruct Hv as [-> | Hv].
      * exists value0. simpl. rewrite <- Hnode. apply Hsub. now left.
      * now apply Hvars.
    + bind_inv Ha. apply ret_Ok in Ha. destruct Ha as [Ha _].
      injection Ha as -> _. exact Hvars.
Qed.

(** X14.  The generator that [analysis_function] returns for a function
    holds the source text of the module, no function table, and a variable
    table made in the run from nothing: each of its entries bears a name
    that a statement of the body assigns.  No entry of the module's table
    and no parameter of the function is in it unless the body assigns the
    name. *)
Theorem analysis_function_local_table fuel def_name params body args self g rt self' :
  analysis_function fuel (ast.FunctionDef def_name params body) args self
  = Ok (g, rt) self' ->
  generator_code g = code self /\
  generator_functions g = None /\
  exists vars, generator_variables g = Some vars /\ assigned_in body vars.
Proof.
  intros H.
  pose proof (proj1 (proj2 (proj2 (methods_nested_state fuel))) _ _ _ _ _ H)
    as [(Hc & _ & _) _].
  destruct fuel as [|fuel]; [discriminate|].
  rewrite analysis_function_S in H.
  bind_inv H. destruct a as [vars rt0]. bind_inv H.
  apply get_self_Ok in Ha0. destruct Ha0 as [-> ->].
  apply ret_Ok in H. destruct H as [H ->]. injection H as -> ->.
  simpl. repeat split; [exact Hc|].
  exists vars. split; [reflexivity|].
  eapply for_each_assigned_in; [| | exact Ha]; [auto|].
  intros v [].
Qed.

End LocalTableFacts.

(** The table of the body of [def f(): x = 1; return 2] holds [x] only,
    which the body assigns. *)
Lemma analysis_function_local_table_witness :
  analysis_function (collaborators := sample_collaborators) 3
    (ast.FunctionDef "f" []
       [ast.Assign [ast.Name "x"] (ast.Num 1); ast.Return (Some (ast.Num 2))])
    [] analyzer_f_assigns_x
  = Ok (mkCodeGenerator EmptyString None (Some [mkVariable "x" (Some Type_.NUMBER)]),
        Type_.NUMBER)
       analyzer_f_assigns_x /\
  exists vars,
    Some [mkVariable "x" (Some Type_.NUMBER)] = Some vars /\
    assigned_in
      [ast.Assign [ast.Name "x"] (ast.Num 1); ast.Return (Some (ast.Num 2))]
      vars.
Proof.
  split; [reflexivity |].
  refine (proj2 (proj2 (analysis_function_local_table
                          (collaborators := sample_collaborators) 3 "f" []
                          [ast.Assign [ast.Name "x"] (ast.Num 1);
                           ast.Return (Some (ast.Num 2))]
                          [] analyzer_f_assigns_x
                          (mkCodeGenerator EmptyString None
                             (Some [mkVariable "x" (Some Type_.NUMBER)]))
                          Type_.NUMBER analyzer_f_assigns_x _))).
  reflexivity.
Defined.

(** ** Argument types and the body *)
Section ArgumentFacts.
Context {collaborators : Collaborators}.

(** X15.  The argument types of a call take no part in the analysis of the
    body of the function: [analysis_function] gives the same outcome for any
    two lists of argument types, and so the first resolution of a function
    returns the same type whatever the argument types of the call; they are
    only recorded in the cache entry. *)
Theorem return_type_ignores_argument_types fuel name args args' self :
  Functions_getitem name (functions self) = None ->
  (forall node,
      analysis_function fuel node args self
      = analysis_function fuel node args' self) /\
  (forall ty self1,
      get_function_return_type fuel name args self = Ok ty self1 ->
      exists self1',
        get_function_return_type fuel name args' self = Ok ty self1').
Proof.
  intros Hf.
  assert (Hbody : forall fuel0 node,
             analysis_function fuel0 node args self
             = analysis_function fuel0 node args' self)
    by (intros [|fuel0] node; reflexivity).
  split; [apply Hbody|].
  intros ty self1 H. destruct fuel as [|fuel]; [discriminate|].
  rewrite get_function_return_type_S in H |- *. rewrite Hf in H |- *.
  destruct (is_system_function name); [eauto|].
  destruct (find _ (module_body self)) as [node|]; [|eauto].
  bind_inv H. destruct a as [g rt]. bind_inv H.
  apply ret_Ok in H. destruct H as [-> _].
  rewrite Hbody in Ha. unfold bind. rewrite Ha. simpl. eauto.
Qed.

End ArgumentFacts.

(** [def f(): return 1] is resolved to NUMBER for a call with a STRING
    argument as for a call without arguments. *)
Lemma return_type_ignores_argument_types_witness :
  Functions_getitem "f" (functions analyzer_f_fresh) = None /\
  get_function_return_type (collaborators := sample_collaborators)
    3 "f" [] analyzer_f_fresh = Ok Type_.NUMBER analyzer_f_cached /\
  exists self1',
    get_function_return_type (collaborators := sample_collaborators)
      3 "f" [Some Type_.STRING] analyzer_f_fresh = Ok Type_.NUMBER self1'.
Proof.
  split; [reflexivity | split; [reflexivity |]].
  refine (proj2 (return_type_ignores_argument_types
                   (collaborators := sample_collaborators)
                   3 "f" [] [Some Type_.STRING] analyzer_f_fresh _)
            Type_.NUMBER analyzer_f_cached _); reflexivity.
Defined.

(** ** Names read in a function body *)

(** C9.  A reference, in a function body, to a name that the body never
    assigns does not fail when the module has assigned the name: the
    reference is read in the module's variable table, the body's own table
    staying empty, and is inferred without an exception to the type of the
    module's variable.  Here the body of [f] is [return x] and [f] is cached
    as returning NUMBER, the type of the module's [x]. *)
Theorem body_reference_reads_module_name :
  analysis (collaborators := sample_collaborators) 5
    (CodeAnalyzer_init EmptyString module_global_x)
  = Ok (mkCodeGenerator EmptyString (Some (functions analyzer_global_x_done))
          (Some (variables analyzer_global_x_done)))
       analyzer_global_x_done /\
  option_map return_type (Functions_getitem "f" (functions analyzer_global_x_done))
  = Some Type_.NUMBER /\
  option_map (fun f => generator_variables (generator f))
    (Functions_getitem "f" (functions analyzer_global_x_done))
  = Some (Some []).
Proof. repeat split. Qed.
